(** * Subscription checkout: the page's [handleSubscribe] and the billing
    handler passed to [serve]

    A shallow embedding of [src/pages/SubscriptionPage.tsx]:

    - JavaScript numbers are IEEE-754 binary64 values ([spec_float] at
      precision 53), so that [Math.round (amount * 100)] is computed as the
      platform computes it;
    - object literals that only travel through [JSON.stringify] are values
      of [jsval]; rows of the two tables are records;
    - everything the code awaits or calls outside itself (the request body,
      the environment, the provider, the datastore, the clock, the browser)
      is an oracle of a [Platform] record, and each call is appended to a
      chronological list of effects;
    - [throw], [try]/[catch] and [finally] are those of a small
      state-and-exception monad. *)

From Stdlib Require Import ZArith Ascii String List Floats.SpecFloat.
From stdpp Require Import base option list gmap strings pretty.

(** ** JavaScript numbers *)

Module Number.
Definition prec : Z := 53.
Definition emax : Z := 1024.

Definition t : Type := spec_float.

(** An integer as a number (exact below [2^53]). *)
Definition of_Z (n : Z) : t := binary_normalize prec emax n 0 false.

(** The numeric literal whose digits are [digits], the last [decimals]
    of them after the point: the binary64 value nearest to
    [digits / 10^decimals].  Both operands are exact when they are below
    [2^53], and the division rounds once, to nearest-even. *)
Definition literal (digits decimals : Z) : t :=
  SFdiv prec emax (of_Z digits) (of_Z (10 ^ decimals)).

(** [x * y] *)
Definition mul (x y : t) : t := SFmul prec emax x y.

(** ToBoolean on a number. *)
Definition truthy (x : t) : bool :=
  match x with
  | S754_zero _ | S754_nan => false
  | _ => true
  end.
End Number.

Module Math.
(** For the finite number [±m·2^e] with [e < 0]: [⌊±m·2^e + 1/2⌋]. *)
Definition nearest_integer (s : bool) (m : positive) (e : Z) : Z :=
  ((cond_Zopp s (Zpos m) + 2 ^ (- e - 1)) / 2 ^ (- e))%Z.

(** [Math.round]: the integer nearest to [x], a tie going towards
    [+∞]; zeros, infinities and NaN are returned as they are, and a
    negative [x] that rounds to zero gives [-0]. *)
Definition round (x : Number.t) : Number.t :=
  match x with
  | S754_finite s m e =>
      if (0 <=? e)%Z then x
      else binary_normalize Number.prec Number.emax
             (nearest_integer s m e) 0 s
  | _ => x
  end.
End Math.

(** ** Values handed to [JSON.stringify] *)

#[local] Unset Elimination Schemes.

Inductive jsval :=
| JNull
| JBool (b : bool)
| JNum (x : Number.t)
| JStr (s : string)
| JArr (items : list jsval)
| JObj (fields : list (string * jsval)).

#[local] Set Elimination Schemes.

(** An object literal: a property whose value is [undefined] is left out
    by [JSON.stringify]. *)
Definition object (props : list (string * option jsval)) : jsval :=
  JObj (omap (λ kv, pair kv.1 <$> kv.2) props).

(** [v.k], [None] standing for [undefined]. *)
Definition jget (k : string) (v : jsval) : option jsval :=
  match v with
  | JObj fields => snd <$> List.find (λ kv, String.eqb kv.1 k) fields
  | _ => None
  end.

(** [v[i]] *)
Definition jnth (i : nat) (v : jsval) : option jsval :=
  match v with
  | JArr items => items !! i
  | _ => None
  end.

(** ToBoolean, on a value that may be [undefined]. *)
Definition truthy (v : option jsval) : bool :=
  match v with
  | None | Some JNull => false
  | Some (JBool b) => b
  | Some (JNum x) => Number.truthy x
  | Some (JStr s) => negb (String.eqb s "")
  | Some (JArr _) | Some (JObj _) => true
  end.

(** ** Errors, and the monad of the two [async] functions *)

Module Error.
Record t := New { message : string }.
End Error.

(** V8's message for a property read on [undefined] or [null]. *)
Definition TypeError_undefined (prop : string) : Error.t :=
  Error.New ("Cannot read properties of undefined (reading '" +:+ prop +:+ "')").

Definition TypeError_null (prop : string) : Error.t :=
  Error.New ("Cannot read properties of null (reading '" +:+ prop +:+ "')").

Section Eff.
Context {S : Type}.

Definition Eff (A : Type) : Type := S → (Error.t + A) * S.

Definition ret {A} (a : A) : Eff A := λ s, (inr a, s).

Definition bind {A B} (c : Eff A) (k : A → Eff B) : Eff B :=
  λ s, match c s with
       | (inr a, s') => k a s'
       | (inl e, s') => (inl e, s')
       end.

Definition throw {A} (e : Error.t) : Eff A := λ s, (inl e, s).

(** [try { body } catch (error) { handler }] *)
Definition try_catch {A} (body : Eff A) (handler : Error.t → Eff A) : Eff A :=
  λ s, match body s with
       | (inr a, s') => (inr a, s')
       | (inl e, s') => handler e s'
       end.

(** [try { body } finally { cleanup }], for a [cleanup] that cannot throw. *)
Definition finally {A} (body : Eff A) (cleanup : S → S) : Eff A :=
  λ s, let '(r, s') := body s in (r, cleanup s').

Definition modify (f : S → S) : Eff unit := λ s, (inr tt, f s).

Definition gets {A} (f : S → A) : Eff A := λ s, (inr (f s), s).
End Eff.

Arguments Eff : clear implicits.

#[global] Instance Eff_ret {S} : MRet (Eff S) := @ret S.
#[global] Instance Eff_bind {S} : MBind (Eff S) := λ A B k c, bind c k.

(** The arguments of an outgoing [fetch]; [body] is the value given to
    [JSON.stringify]. *)
Module RequestInit.
Record t := {
  url : string;
  method : string;
  headers : list (string * string);
  body : jsval
}.
End RequestInit.

(** ** The billing handler: what it receives, calls and writes *)

Module Handler.

Definition corsHeaders : list (string * string) :=
[("Access-Control-Allow-Origin", "*");
 ("Access-Control-Allow-Headers",
  "authorization, x-client-info, apikey, content-type")].

Module UserData.
Record t := { name : string; email : string; cpf : string }.
End UserData.

(** [interface BillingRequest] *)
Module BillingRequest.
Record t := {
  user_id : string;
  user_data : UserData.t;
  amount : Number.t;
  description : string
}.
End BillingRequest.

(** The incoming request.  [json] is what [await req.json()], destructured
    at the type the source gives it, evaluates to: a [BillingRequest], or
    the error it throws.  It is a function of the body alone. *)
Module Request.
Record t := {
  method : string;
  headers : list (string * string);
  json : Error.t + BillingRequest.t
}.
End Request.

Module Response.
Inductive body :=
| Text (s : string)
| Stringify (v : jsval).   (* the text [JSON.stringify v] *)

(** [new Response(body, { status, headers })]; [None] is a [null] body. *)
Record t := New {
  body_of : option body;
  status : Z;
  headers : list (string * string)
}.
End Response.

(** The provider's answer, as far as the handler reads it: [data] may be
    missing, in which case reading [data.id] throws. *)
Module AbacatePayData.
Record t := { id : string; url : string }.
End AbacatePayData.

Module AbacatePayResult.
Record t := { data : option AbacatePayData.t }.
End AbacatePayResult.

Module FetchResponse.
Record t := {
  status : Z;
  text : string;
  json : Error.t + AbacatePayResult.t
}.

(** [response.ok]: the status is in the range 200-299. *)
Definition ok (r : t) : bool := ((200 <=? status r) && (status r <=? 299))%Z.
End FetchResponse.

(** A row written to [user_profiles]. *)
Module UserProfile.
Record t := {
  user_id : string;
  assinatura_id : string;
  data_assinatura : string;
  proximo_pagamento : string;
  assinatura_ativa : bool;
  updated_at : string
}.
End UserProfile.

(** A row written to [pagamentos]. *)
Module Pagamento.
Record t := {
  user_id : string;
  assinatura_id : string;
  efi_charge_id : string;
  valor : Number.t;
  metodo_pagamento : string;
  status : string
}.
End Pagamento.

(** Modelled from the spec: the schema of the two tables is not among the
    sources.  [user_profiles] is keyed by [user_id] and an upsert creates
    the row or overwrites it; [pagamentos] is appended to. *)
Record Store := {
  user_profiles : gmap string UserProfile.t;
  pagamentos : list Pagamento.t
}.

Definition upsert_row (row : UserProfile.t) (db : Store) : Store :=
  {| user_profiles := <[UserProfile.user_id row := row]> (user_profiles db);
     pagamentos := pagamentos db |}.

Definition insert_row (row : Pagamento.t) (db : Store) : Store :=
  {| user_profiles := user_profiles db;
     pagamentos := pagamentos db ++ [row] |}.

(** What the handler does to the outside, in the order it does it. *)
Inductive Effect :=
| ReadBody
| ConsoleLog (args : list string)
| ConsoleError (args : list string)
| CreateClient (supabaseUrl supabaseKey : string)
| Fetch (init : RequestInit.t)
| NewDate
| Upsert (table : string) (row : UserProfile.t)
| Insert (table : string) (row : Pagamento.t).

Record State := {
  store : Store;
  dates : nat;                (* how many [new Date()] so far *)
  effects : list Effect
}.

(** The handler's surroundings.  A database call that reports an error
    leaves the tables as they were. *)
Record Platform := {
  env_get : string → option string;                 (* [Deno.env.get] *)
  createClient_throws : string → string → option Error.t;
  fetch : RequestInit.t → Error.t + FetchResponse.t; (* [inl]: it rejects *)
  clock : nat → Z;                                  (* the n-th [new Date()] *)
  plus_one_month : Z → Z;              (* [d.setMonth(d.getMonth() + 1)] *)
  toISOString : Z → string;
  upsert_error : Store → UserProfile.t → option Error.t;
  insert_error : Store → Pagamento.t → option Error.t
}.

(** ** The billing handler: its code *)

Section Serve.
Variable p : Platform.

Definition emit (e : Effect) : Eff State unit :=
  modify (λ st, {| store := store st; dates := dates st;
                   effects := effects st ++ [e] |}).

Definition console_log (args : list string) : Eff State unit :=
  emit (ConsoleLog args).

Definition console_error (args : list string) : Eff State unit :=
  emit (ConsoleError args).

(** [await req.json()] *)
Definition req_json (req : Request.t) : Eff State BillingRequest.t :=
  emit ReadBody;;
  match Request.json req with
  | inl e => throw e
  | inr b => mret b
  end.

Definition createClient (supabaseUrl supabaseKey : string) : Eff State unit :=
  emit (CreateClient supabaseUrl supabaseKey);;
  match createClient_throws p supabaseUrl supabaseKey with
  | Some e => throw e
  | None => mret tt
  end.

(** [await fetch(url, init)] *)
Definition await_fetch (init : RequestInit.t) : Eff State FetchResponse.t :=
  emit (Fetch init);;
  match fetch p init with
  | inl e => throw e
  | inr r => mret r
  end.

(** [new Date()] *)
Definition new_Date : Eff State Z :=
  n ← gets dates;
  modify (λ st, {| store := store st; dates := S (dates st);
                   effects := effects st ++ [NewDate] |});;
  mret (clock p n).

(** [await supabase.from('user_profiles').upsert(row)], giving [error]. *)
Definition upsert (row : UserProfile.t) : Eff State (option Error.t) :=
  emit (Upsert "user_profiles" row);;
  db ← gets store;
  match upsert_error p db row with
  | Some e => mret (Some e)
  | None =>
      modify (λ st, {| store := upsert_row row (store st); dates := dates st;
                       effects := effects st |});;
      mret None
  end.

(** [await supabase.from('pagamentos').insert(row)], giving [error]. *)
Definition insert (row : Pagamento.t) : Eff State (option Error.t) :=
  emit (Insert "pagamentos" row);;
  db ← gets store;
  match insert_error p db row with
  | Some e => mret (Some e)
  | None =>
      modify (λ st, {| store := insert_row row (store st); dates := dates st;
                       effects := effects st |});;
      mret None
  end.

(** The object sent to the provider.  (A [price] that is NaN is printed
    as [null] by [JSON.stringify].) *)
Definition billingData (user_id : string) (user_data : UserData.t)
    (amount : Number.t) (description : string) : jsval :=
  JObj [
    ("frequency", JStr "MONTHLY");
    ("methods", JArr [JStr "PIX"]);
    ("customer", JObj [
       ("name", JStr (UserData.name user_data));
       ("email", JStr (UserData.email user_data));
       ("taxId", JStr (UserData.cpf user_data));
       ("cellphone", JStr "")]);
    ("products", JArr [JObj [
       ("externalId", JStr ("praxis-monthly-" +:+ user_id));
       ("name", JStr "PRAXIS - Assinatura Mensal");
       ("description", JStr description);
       ("quantity", JNum (Number.of_Z 1));
       ("price", JNum (Math.round (Number.mul amount (Number.of_Z 100))))]])
  ].

Definition json_headers : list (string * string) :=
  corsHeaders ++ [("Content-Type", "application/json")].

(** The call to the provider, for the decoded request [b]. *)
Definition abacatePayRequest (b : BillingRequest.t) : RequestInit.t := {|
  RequestInit.url := "https://api.abacatepay.com/v1/billing/create";
  RequestInit.method := "POST";
  RequestInit.headers := [
    ("Content-Type", "application/json");
    ("Authorization",
     "Bearer " +:+ default "undefined" (env_get p "ABACATEPAY_API_TOKEN"))];
  RequestInit.body :=
    billingData (BillingRequest.user_id b) (BillingRequest.user_data b)
                (BillingRequest.amount b) (BillingRequest.description b) |}.

(** The body of the [try] block. *)
Definition create_billing (req : Request.t) : Eff State Response.t :=
  b ← req_json req;
  let user_id := BillingRequest.user_id b in
  let amount := BillingRequest.amount b in
  console_log ["Creating AbacatePay billing for user:"; user_id];;
  createClient (default "" (env_get p "SUPABASE_URL"))
               (default "" (env_get p "SUPABASE_SERVICE_ROLE_KEY"));;
  abacatePayResponse ← await_fetch (abacatePayRequest b);
  (if negb (FetchResponse.ok abacatePayResponse) then
     console_error ["AbacatePay API error:";
                    FetchResponse.text abacatePayResponse];;
     throw (Error.New ("AbacatePay API error: "
                       +:+ pretty (FetchResponse.status abacatePayResponse)))
   else mret tt);;
  abacatePayResult ← match FetchResponse.json abacatePayResponse with
                     | inl e => throw e
                     | inr r => mret r
                     end;
  data ← match AbacatePayResult.data abacatePayResult with
         | None => throw (TypeError_undefined "id")
         | Some d => mret d
         end;
  console_log ["AbacatePay billing created:"; AbacatePayData.id data];;
  nextPayment ← new_Date;
  let nextPayment := plus_one_month p nextPayment in
  data_assinatura ← new_Date;
  updated_at ← new_Date;
  updateProfileError ← upsert {|
    UserProfile.user_id := user_id;
    UserProfile.assinatura_id := AbacatePayData.id data;
    UserProfile.data_assinatura := toISOString p data_assinatura;
    UserProfile.proximo_pagamento := toISOString p nextPayment;
    UserProfile.assinatura_ativa := false;
    UserProfile.updated_at := toISOString p updated_at |};
  match updateProfileError with
  | Some e =>
      console_error ["Error updating user profile:"; Error.message e];;
      throw e
  | None => mret tt
  end;;
  insertPaymentError ← insert {|
    Pagamento.user_id := user_id;
    Pagamento.assinatura_id := AbacatePayData.id data;
    Pagamento.efi_charge_id := AbacatePayData.id data;
    Pagamento.valor := amount;
    Pagamento.metodo_pagamento := "pix";
    Pagamento.status := "pending" |};
  match insertPaymentError with
  | Some e =>
      console_error ["Error creating payment record:"; Error.message e];;
      throw e
  | None => mret tt
  end;;
  console_log ["Billing and payment records created successfully"];;
  mret (Response.New
          (Some (Response.Stringify (JObj [
             ("success", JBool true);
             ("billing_id", JStr (AbacatePayData.id data));
             ("redirect_url", JStr (AbacatePayData.url data));
             ("message", JStr "Cobrança criada com sucesso")])))
          200 json_headers).

(** The [catch] block. *)
Definition on_error (error : Error.t) : Eff State Response.t :=
  console_error ["Error creating AbacatePay billing:"; Error.message error];;
  mret (Response.New
          (Some (Response.Stringify (JObj [
             ("error", JStr "Falha ao criar cobrança");
             ("message", JStr (Error.message error))])))
          500 json_headers).

(** The function given to [serve]. *)
Definition serve (req : Request.t) : Eff State Response.t :=
  if String.eqb (Request.method req) "OPTIONS" then
    mret (Response.New None 200 corsHeaders)
  else if negb (String.eqb (Request.method req) "POST") then
    mret (Response.New (Some (Response.Text "Method not allowed")) 405
                       corsHeaders)
  else try_catch (create_billing req) on_error.
End Serve.

End Handler.

(** ** The page: [handleSubscribe] *)

Module SubscriptionPage.

(** [user.user_metadata], as far as the page reads it. *)
Module UserMetadata.
Record t := { full_name : option string; cpf : option string }.
End UserMetadata.

(** The [user] of [useAuth()]. *)
Module User.
Record t := {
  id : string;
  email : option string;
  user_metadata : option UserMetadata.t
}.
End User.

Module FetchResponse.
Record t := { ok : bool; json : Error.t + jsval }.
End FetchResponse.

Inductive Effect :=
| ToastError (message : string)
| Navigate (to : string)
| SetIsLoading (value : bool)
| Fetch (init : RequestInit.t)
| LocationHref (value : jsval)          (* [window.location.href = value] *)
| ConsoleError (args : list string).

Record State := {
  isLoading : bool;
  effects : list Effect
}.

Record Platform := {
  fetch : RequestInit.t → Error.t + FetchResponse.t   (* [inl]: it rejects *)
}.

(** [a || b] on strings that may be [undefined]: [a] unless it is
    [undefined] or empty. *)
Definition or_else (a b : option string) : option string :=
  if truthy (JStr <$> a) then a else b.

(** [a || 'literal'] *)
Definition or_literal (a : option string) (literal : string) : string :=
  match or_else a (Some literal) with
  | Some s => s
  | None => literal
  end.

(** [s.split(sep)[0]]: what precedes the first [sep], or all of [s]. *)
Fixpoint split_0 (sep : ascii) (s : string) : string :=
  match s with
  | EmptyString => EmptyString
  | String c rest =>
      if Ascii.eqb c sep then EmptyString else String c (split_0 sep rest)
  end.

(** The object given to [JSON.stringify] as the request body. *)
Definition payload (user : User.t) : jsval :=
  object [
    ("user_id", Some (JStr (User.id user)));
    ("user_data", Some (object [
       ("name", Some (JStr
          (or_literal
             (or_else (User.user_metadata user ≫= UserMetadata.full_name)
                      (split_0 "@" <$> User.email user))
             "Cliente")));
       ("email", JStr <$> User.email user);
       ("cpf", Some (JStr
          (or_literal (User.user_metadata user ≫= UserMetadata.cpf)
                      "00000000000")))]));
    ("amount", Some (JNum (Number.literal 990 2)));
    ("description", Some (JStr "Assinatura mensal PRAXIS"))
  ].

Section HandleSubscribe.
Variable p : Platform.

Definition emit (e : Effect) : Eff State unit :=
  modify (λ st, {| isLoading := isLoading st;
                   effects := effects st ++ [e] |}).

Definition setIsLoading (value : bool) (st : State) : State :=
  {| isLoading := value; effects := effects st ++ [SetIsLoading value] |}.

Definition await_fetch (init : RequestInit.t) : Eff State FetchResponse.t :=
  emit (Fetch init);;
  match fetch p init with
  | inl e => throw e
  | inr r => mret r
  end.

(** The body of the [try] block. *)
Definition request_billing (user : User.t) : Eff State unit :=
  response ← await_fetch {|
    RequestInit.url :=
      "https://praxiis.xyz/functions/v1/create-abacatepay-billing";
    RequestInit.method := "POST";
    RequestInit.headers := [
      ("Content-Type", "application/json");
      ("Authorization", "Bearer " +:+ User.id user)];
    RequestInit.body := payload user |};
  (if negb (FetchResponse.ok response) then
     throw (Error.New "Falha ao criar cobrança")
   else mret tt);;
  data ← match FetchResponse.json response with
         | inl e => throw e
         | inr JNull => throw (TypeError_null "success")
         | inr v => mret v
         end;
  if truthy (jget "success" data) && truthy (jget "redirect_url" data) then
    emit (LocationHref (default JNull (jget "redirect_url" data)))
  else throw (Error.New "Resposta inválida do servidor").

(** The [catch] block. *)
Definition on_error (error : Error.t) : Eff State unit :=
  emit (ConsoleError ["Error creating subscription:"; Error.message error]);;
  emit (ToastError "Erro ao processar assinatura. Tente novamente.").

Definition handleSubscribe (user : option User.t) : Eff State unit :=
  match user with
  | None =>
      emit (ToastError "Você precisa estar logado para assinar");;
      emit (Navigate "/auth/login")
  | Some user =>
      modify (setIsLoading true);;
      finally (try_catch (request_billing user) on_error)
              (setIsLoading false)
  end.
End HandleSubscribe.

End SubscriptionPage.

(** ** Reading what was sent and written *)

(** The [externalId] and the [price] of the first product of a provider
    request body. *)
Definition first_product (body : jsval) : option jsval :=
  match jget "products" body with
  | Some products => jnth 0 products
  | None => None
  end.

Definition externalId_of (body : jsval) : option jsval :=
  match first_product body with
  | Some product => jget "externalId" product
  | None => None
  end.

Definition price_of (body : jsval) : option jsval :=
  match first_product body with
  | Some product => jget "price" product
  | None => None
  end.

(** The database calls among a list of effects. *)
Definition is_write (e : Handler.Effect) : bool :=
  match e with
  | Handler.Upsert _ _ | Handler.Insert _ _ => true
  | _ => false
  end.

Definition writes (es : list Handler.Effect) : list Handler.Effect :=
  List.filter is_write es.

(** A field of [user_data] in the body the page sends. *)
Definition user_data_of (field : string) (body : jsval) : option jsval :=
  match jget "user_data" body with
  | Some user_data => jget field user_data
  | None => None
  end.

(** A string that is [undefined] or empty: the operands [||] skips. *)
Definition blank (a : option string) : Prop :=
  a = None ∨ a = Some ""%string.

(** Whether [sep] occurs in [s]. *)
Fixpoint occurs (sep : ascii) (s : string) : bool :=
  match s with
  | EmptyString => false
  | String c rest => Ascii.eqb c sep || occurs sep rest
  end.

(** The outgoing requests among the page's effects. *)
Definition is_fetch (e : SubscriptionPage.Effect) : bool :=
  match e with
  | SubscriptionPage.Fetch _ => true
  | _ => false
  end.

(** The response of the success path for the provider's [data]. *)
Definition success_response (data : Handler.AbacatePayData.t)
    : Handler.Response.t :=
  Handler.Response.New
    (Some (Handler.Response.Stringify (JObj [
       ("success", JBool true);
       ("billing_id", JStr (Handler.AbacatePayData.id data));
       ("redirect_url", JStr (Handler.AbacatePayData.url data));
       ("message", JStr "Cobrança criada com sucesso")])))
    200 Handler.json_headers.

(** Between [before] and [after], the [user_profiles] row of [user_id] and
    one more [pagamentos] row came to exist, both carrying the billing
    identifier [billing_id]. *)
Definition both_records (billing_id user_id : string)
    (before after : Handler.Store) : Prop :=
  ∃ sub pay,
    Handler.user_profiles after !! user_id = Some sub
    ∧ Handler.UserProfile.user_id sub = user_id
    ∧ Handler.UserProfile.assinatura_id sub = billing_id
    ∧ Handler.pagamentos after = Handler.pagamentos before ++ [pay]
    ∧ Handler.Pagamento.user_id pay = user_id
    ∧ Handler.Pagamento.assinatura_id pay = billing_id
    ∧ Handler.Pagamento.efi_charge_id pay = billing_id.

(** The body of the failure response for a thrown error's message. *)
Definition failure_body (message : string) : jsval :=
  JObj [("error", JStr "Falha ao criar cobrança"); ("message", JStr message)].

(** ** Scenarios *)

Module Scenario.
Import Handler.

Definition bill_1 : AbacatePayData.t :=
  {| AbacatePayData.id := "bill_1"; AbacatePayData.url := "https://pay/bill_1" |}.

(** A provider response with the given status. *)
Definition provider_response (status : Z) : FetchResponse.t := {|
  FetchResponse.status := status;
  FetchResponse.text := "payment required";
  FetchResponse.json := inr {| AbacatePayResult.data := Some bill_1 |} |}.

(** Surroundings in which the provider answers with [status] and the
    datastore answers the two writes with [upsert_err] and [insert_err]. *)
Definition platform (status : Z) (upsert_err insert_err : option Error.t)
    : Platform := {|
  env_get := λ _, Some "configured"%string;
  createClient_throws := λ _ _, None;
  fetch := λ _, inr (provider_response status);
  clock := λ n, (1700000000000 + Z.of_nat n)%Z;
  plus_one_month := λ d, (d + 2592000000)%Z;
  toISOString := pretty;
  upsert_error := λ _ _, upsert_err;
  insert_error := λ _ _, insert_err |}.

Definition maria : UserData.t :=
  {| UserData.name := "Maria Silva"; UserData.email := "maria@x.com";
     UserData.cpf := "00000000000" |}.

Definition billing_request (amount : Number.t) : BillingRequest.t := {|
  BillingRequest.user_id := "abc123";
  BillingRequest.user_data := maria;
  BillingRequest.amount := amount;
  BillingRequest.description := "Assinatura mensal PRAXIS" |}.

Definition request (method : string) (authorization : option string)
    : Request.t := {|
  Request.method := method;
  Request.headers :=
    ("Content-Type", "application/json")
    :: match authorization with
       | Some a => [("Authorization", a)]
       | None => []
       end;
  Request.json := inr (billing_request (Number.literal 990 2)) |}.

Definition empty_state : State := {|
  store := {| user_profiles := ∅; pagamentos := [] |};
  dates := 0;
  effects := [] |}.

(** The row the handler upserts in the scenario. *)
Definition written_row : UserProfile.t := {|
  UserProfile.user_id := "abc123";
  UserProfile.assinatura_id := "bill_1";
  UserProfile.data_assinatura := "1700000000001";
  UserProfile.proximo_pagamento := "1702592000000";
  UserProfile.assinatura_ativa := false;
  UserProfile.updated_at := "1700000000002" |}.

Definition unique_violation : Error.t :=
  Error.New "duplicate key value violates unique constraint".

(** The signed-in user of the end-to-end scenario: a full name, an email,
    no cpf. *)
Definition maria_user : SubscriptionPage.User.t := {|
  SubscriptionPage.User.id := "abc123";
  SubscriptionPage.User.email := Some "maria@x.com"%string;
  SubscriptionPage.User.user_metadata := Some {|
    SubscriptionPage.UserMetadata.full_name := Some "Maria Silva"%string;
    SubscriptionPage.UserMetadata.cpf := None |} |}.

(** A browser whose [fetch] rejects. *)
Definition offline : SubscriptionPage.Platform :=
  {| SubscriptionPage.fetch := λ _, inl (Error.New "Failed to fetch") |}.

Definition idle : SubscriptionPage.State :=
  {| SubscriptionPage.isLoading := false; SubscriptionPage.effects := [] |}.
End Scenario.

(** ** Reading a run of the handler or of the page *)

(** The calls that leave the handler: to the provider and to the
    datastore. *)
Definition is_call (e : Handler.Effect) : bool :=
  match e with
  | Handler.Fetch _ | Handler.Upsert _ _ | Handler.Insert _ _ => true
  | _ => false
  end.

Definition calls (es : list Handler.Effect) : list Handler.Effect :=
  List.filter is_call es.

(** Structural equality of numbers. *)
Definition number_eqb (x y : Number.t) : bool :=
  match x, y with
  | S754_zero s, S754_zero s' => Bool.eqb s s'
  | S754_infinity s, S754_infinity s' => Bool.eqb s s'
  | S754_nan, S754_nan => true
  | S754_finite s m e, S754_finite s' m' e' =>
      Bool.eqb s s' && Pos.eqb m m' && Z.eqb e e'
  | _, _ => false
  end.

(** [amount * 100], rounded, is the number of cents [cents]. *)
Definition cents_exact (cents : Z) : bool :=
  number_eqb
    (Math.round (Number.mul (Number.literal cents 2) (Number.of_Z 100)))
    (Number.of_Z cents).

(** [cents_exact] on [first], [first + 1], ..., [first + count - 1]. *)
Fixpoint cents_exact_from (first : Z) (count : nat) : bool :=
  match count with
  | O => true
  | S n => cents_exact first && cents_exact_from (first + 1) n
  end.

(** What the page shows and where it sends the browser. *)
Definition is_toast (e : SubscriptionPage.Effect) : bool :=
  match e with
  | SubscriptionPage.ToastError _ => true
  | _ => false
  end.

Definition is_location (e : SubscriptionPage.Effect) : bool :=
  match e with
  | SubscriptionPage.LocationHref _ => true
  | _ => false
  end.

(** The handler's [Response] as the page's [fetch] receives it: [ok] is
    the status being in 200-299, and [json()] parses the body text, which
    gives back the value that was stringified and throws on a body that is
    empty or not JSON. *)
Definition as_fetched (r : Handler.Response.t) : SubscriptionPage.FetchResponse.t := {|
  SubscriptionPage.FetchResponse.ok :=
    ((200 <=? Handler.Response.status r)
     && (Handler.Response.status r <=? 299))%Z;
  SubscriptionPage.FetchResponse.json :=
    match Handler.Response.body_of r with
    | Some (Handler.Response.Stringify v) => inr v
    | Some (Handler.Response.Text _) =>
        inl (Error.New "Unexpected token in JSON")
    | None => inl (Error.New "Unexpected end of JSON input")
    end |}.

(** A browser whose [fetch] is answered by the handler's response [r]. *)
Definition answered_by (r : Handler.Response.t) : SubscriptionPage.Platform :=
  {| SubscriptionPage.fetch := λ _, inr (as_fetched r) |}.

(** The rows the handler writes for the decoded request [b] and the
    provider's [data], when [n] dates were taken before: the dates of the
    [user_profiles] row come from three successive [new Date()]. *)
Definition subscription_row (p : Handler.Platform) (n : nat)
    (b : Handler.BillingRequest.t) (data : Handler.AbacatePayData.t)
    : Handler.UserProfile.t := {|
  Handler.UserProfile.user_id := Handler.BillingRequest.user_id b;
  Handler.UserProfile.assinatura_id := Handler.AbacatePayData.id data;
  Handler.UserProfile.data_assinatura :=
    Handler.toISOString p (Handler.clock p (S n));
  Handler.UserProfile.proximo_pagamento :=
    Handler.toISOString p (Handler.plus_one_month p (Handler.clock p n));
  Handler.UserProfile.assinatura_ativa := false;
  Handler.UserProfile.updated_at :=
    Handler.toISOString p (Handler.clock p (S (S n))) |}.

Definition payment_row (b : Handler.BillingRequest.t)
    (data : Handler.AbacatePayData.t) : Handler.Pagamento.t := {|
  Handler.Pagamento.user_id := Handler.BillingRequest.user_id b;
  Handler.Pagamento.assinatura_id := Handler.AbacatePayData.id data;
  Handler.Pagamento.efi_charge_id := Handler.AbacatePayData.id data;
  Handler.Pagamento.valor := Handler.BillingRequest.amount b;
  Handler.Pagamento.metodo_pagamento := "pix";
  Handler.Pagamento.status := "pending" |}.

(** The 500 answer for a thrown error. *)
Definition failure_response (e : Error.t) : Handler.Response.t :=
  Handler.Response.New
    (Some (Handler.Response.Stringify (failure_body (Error.message e))))
    500 Handler.json_headers.

(** The provider was reached and answered [data]: the request is a POST
    whose body decodes to [b], the client could be created, and the
    provider's answer has a success status and carries [data]. *)
Definition provider_answers (p : Handler.Platform) (req : Handler.Request.t)
    (b : Handler.BillingRequest.t) (data : Handler.AbacatePayData.t) : Prop :=
  Handler.Request.method req = "POST"%string
  ∧ Handler.Request.json req = inr b
  ∧ Handler.createClient_throws p
      (default ""%string (Handler.env_get p "SUPABASE_URL"))
      (default ""%string (Handler.env_get p "SUPABASE_SERVICE_ROLE_KEY"))
    = None
  ∧ ∃ res, Handler.fetch p (Handler.abacatePayRequest p b) = inr res
           ∧ Handler.FetchResponse.ok res = true
           ∧ Handler.FetchResponse.json res
             = inr {| Handler.AbacatePayResult.data := Some data |}.

(** The one request the page sends for [user]: the handler's URL, the
    user's identifier as bearer credential, and [payload user] as body. *)
Definition billing_call (user : SubscriptionPage.User.t) : RequestInit.t := {|
  RequestInit.url :=
    "https://praxiis.xyz/functions/v1/create-abacatepay-billing";
  RequestInit.method := "POST";
  RequestInit.headers := [
    ("Content-Type", "application/json");
    ("Authorization", "Bearer " +:+ SubscriptionPage.User.id user)]%string;
  RequestInit.body := SubscriptionPage.payload user |}.

(** The answer to [fetch] lets the page go on to the payment page at
    [target]: it came, with a success status, and its JSON has a truthy
    [success] and the truthy [redirect_url] [target]. *)
Definition accepted (answer : Error.t + SubscriptionPage.FetchResponse.t)
    (target : jsval) : Prop :=
  ∃ res data,
    answer = inr res
    ∧ SubscriptionPage.FetchResponse.ok res = true
    ∧ SubscriptionPage.FetchResponse.json res = inr data
    ∧ truthy (jget "success" data) = true
    ∧ jget "redirect_url" data = Some target
    ∧ truthy (Some target) = true.

(** The notification of a failed attempt. *)
Definition failure_toast : SubscriptionPage.Effect :=
  SubscriptionPage.ToastError "Erro ao processar assinatura. Tente novamente.".

(** ** More scenarios *)

Module Cases.
Import Handler.

(** A POST whose body is not JSON. *)
Definition undecodable : Request.t := {|
  Request.method := "POST";
  Request.headers := [("Content-Type", "application/json")]%string;
  Request.json := inl (Error.New "Unexpected end of JSON input") |}.

(** Surroundings like [Scenario.platform], but for what the provider's
    body parses to. *)
Definition provider_says (json : Error.t + AbacatePayResult.t) : Platform := {|
  env_get := λ _, Some "configured"%string;
  createClient_throws := λ _ _, None;
  fetch := λ _, inr {| FetchResponse.status := 200;
                       FetchResponse.text := "";
                       FetchResponse.json := json |};
  clock := λ n, (1700000000000 + Z.of_nat n)%Z;
  plus_one_month := λ d, (d + 2592000000)%Z;
  toISOString := pretty;
  upsert_error := λ _ _, None;
  insert_error := λ _ _, None |}.

Definition bill_2 : AbacatePayData.t :=
  {| AbacatePayData.id := "bill_2"; AbacatePayData.url := "https://pay/bill_2" |}.

Definition bill_without_url : AbacatePayData.t :=
  {| AbacatePayData.id := "bill_3"; AbacatePayData.url := "" |}.

Definition provider_gives (d : AbacatePayData.t) : Platform :=
  provider_says (inr {| AbacatePayResult.data := Some d |}).

(** Surroundings with no environment variable set. *)
Definition unconfigured : Platform := {|
  env_get := λ _, None;
  createClient_throws := λ _ _, None;
  fetch := λ _, inr (Scenario.provider_response 401);
  clock := λ n, Z.of_nat n;
  plus_one_month := λ d, d;
  toISOString := pretty;
  upsert_error := λ _ _, None;
  insert_error := λ _ _, None |}.

Definition the_request : Request.t := Scenario.request "POST" None.

Definition the_body : BillingRequest.t :=
  Scenario.billing_request (Number.literal 990 2).

(** A browser whose [fetch] is answered with a success status and the
    JSON [data]. *)
Definition answering (data : jsval) : SubscriptionPage.Platform := {|
  SubscriptionPage.fetch := λ _,
    inr {| SubscriptionPage.FetchResponse.ok := true;
           SubscriptionPage.FetchResponse.json := inr data |} |}.

Definition go_to_bill_1 : jsval :=
  JObj [("success", JBool true); ("redirect_url", JStr "https://pay/bill_1")].

(** A user known only by an email without a local part. *)
Definition nameless_user : SubscriptionPage.User.t := {|
  SubscriptionPage.User.id := "u42";
  SubscriptionPage.User.email := Some "@x.com"%string;
  SubscriptionPage.User.user_metadata := None |}.
End Cases.

(** Tactics for running the page symbolically. *)
Ltac unfold_page :=
  unfold SubscriptionPage.handleSubscribe, SubscriptionPage.request_billing,
    SubscriptionPage.on_error, SubscriptionPage.await_fetch,
    SubscriptionPage.emit, SubscriptionPage.setIsLoading, try_catch, finally,
    modify, gets, throw, mbind, mret, Eff_bind, Eff_ret, bind, ret.


Ltac reduce_page := cbn -[SubscriptionPage.payload String.append truthy jget].

(** Case analysis on what the page's [fetch] gives and on the two tests
    of the answer. *)
Ltac page_case :=
  match goal with
  | |- context [match SubscriptionPage.fetch ?p ?i with _ => _ end] =>
      destruct (SubscriptionPage.fetch p i) as [?|[[|] ?]] eqn:?
  | |- context [match ?j with inl _ => _ | inr _ => _ end] =>
      destruct j as [?|[]] eqn:?
  | |- context [truthy (jget "success" ?d)] =>
      destruct (truthy (jget "success" d)) eqn:?
  | |- context [truthy (jget "redirect_url" ?d)] =>
      destruct (truthy (jget "redirect_url" d)) eqn:?
  end; reduce_page.


(** Discharges [provider_answers] in a scenario, by evaluation. *)
Ltac provider_answers_here :=
  unfold provider_answers;
  split; [reflexivity|]; split; [reflexivity|]; split; [reflexivity|];
  eexists; split; [reflexivity|]; split; reflexivity.
(** ** Tactics for running the handler symbolically *)

Ltac unfold_serve :=
  unfold Handler.serve, try_catch, Handler.create_billing, Handler.on_error,
    Handler.req_json, Handler.createClient, Handler.await_fetch,
    Handler.new_Date, Handler.upsert, Handler.insert, Handler.console_log,
    Handler.console_error, Handler.emit, modify, gets, throw, mbind, mret,
    Eff_bind, Eff_ret, bind, ret.

Ltac reduce :=
  cbn -[pretty Handler.upsert_row Handler.insert_row String.append
        Handler.abacatePayRequest].

(** Case analysis on the next oracle the handler consults. *)
Ltac next_case :=
  match goal with
  | |- context [match Handler.Request.json ?r with _ => _ end] =>
      destruct (Handler.Request.json r) eqn:?
  | |- context [match Handler.createClient_throws ?p ?u ?k with _ => _ end] =>
      destruct (Handler.createClient_throws p u k) eqn:?
  | |- context [match Handler.fetch ?p ?i with _ => _ end] =>
      destruct (Handler.fetch p i) eqn:?
  | |- context [Handler.FetchResponse.ok ?r] =>
      destruct (Handler.FetchResponse.ok r) eqn:?
  | |- context [match Handler.FetchResponse.json ?r with _ => _ end] =>
      destruct (Handler.FetchResponse.json r) as [?|[[?|]]] eqn:?
  | |- context [match Handler.upsert_error ?p ?db ?row with _ => _ end] =>
      destruct (Handler.upsert_error p db row) eqn:?
  | |- context [match Handler.insert_error ?p ?db ?row with _ => _ end] =>
      destruct (Handler.insert_error p db row) eqn:?
  end; reduce.

(** Case analysis on the method gate. *)
Ltac case_method req :=
  unfold_serve;
  destruct (String.eqb (Handler.Request.method req) "OPTIONS") eqn:?;
  [ | destruct (String.eqb (Handler.Request.method req) "POST") eqn:? ];
  reduce.

(** * Properties *)

(** ** Numbers *)

(** [Math.nearest_integer] is the nearest integer, a tie going up:
    [n - 1/2 ≤ ±m·2^e < n + 1/2], written without fractions. *)
Lemma nearest_integer_spec (s : bool) (m : positive) (e : Z) :
  (e < 0)%Z →
  (2 * Math.nearest_integer s m e * 2 ^ (- e)
   ≤ 2 * cond_Zopp s (Zpos m) + 2 ^ (- e)
   < 2 * (Math.nearest_integer s m e + 1) * 2 ^ (- e))%Z.
Proof.
  intros He. unfold Math.nearest_integer.
  set (x := cond_Zopp s (Z.pos m)). set (k := (- e)%Z).
  assert (Hk : (0 < k)%Z) by (unfold k; lia).
  assert (Hp : (2 ^ k = 2 * 2 ^ (k - 1))%Z).
  { replace k with (Z.succ (k - 1)) at 1 by lia. apply Z.pow_succ_r. lia. }
  replace (- e - 1)%Z with (k - 1)%Z by (unfold k; lia).
  assert (Hpos : (0 < 2 ^ k)%Z) by (apply Z.pow_pos_nonneg; lia).
  pose proof (Z.div_mod (x + 2 ^ (k - 1)) (2 ^ k) ltac:(lia)) as Hdm.
  pose proof (Z.mod_pos_bound (x + 2 ^ (k - 1)) (2 ^ k) Hpos) as Hb.
  nia.
Qed.

(** The literal [9.90] is the binary64 number nearest to 99/10:
    [5573204538870989 · 2^-49], within half a unit in the last place. *)
Lemma literal_9_90 :
  Number.literal 990 2 = S754_finite false 5573204538870989 (-49)
  ∧ (Z.abs (10 * 5573204538870989 - 99 * 2 ^ 49) * 2 ≤ 10)%Z.
Proof. split; [vm_compute; reflexivity | vm_compute; discriminate]. Qed.

(** The literal [9.905] is the binary64 number nearest to 9905/1000, and it
    lies below 9.905. *)
Lemma literal_9_905 :
  Number.literal 9905 3 = S754_finite false 5576019288638095 (-49)
  ∧ (Z.abs (1000 * 5576019288638095 - 9905 * 2 ^ 49) * 2 ≤ 1000)%Z
  ∧ (1000 * 5576019288638095 < 9905 * 2 ^ 49)%Z.
Proof.
  split; [vm_compute; reflexivity|].
  split; [vm_compute; discriminate | vm_compute; reflexivity].
Qed.

(** [9.905 * 100] is [8712530138497023 · 2^-43], which is below 990.5. *)
Lemma product_9_905_below_half :
  Number.mul (Number.literal 9905 3) (Number.of_Z 100)
  = S754_finite false 8712530138497023 (-43)
  ∧ (2 * 8712530138497023 < 1981 * 2 ^ 43)%Z.
Proof. split; vm_compute; reflexivity. Qed.

(** C3 (as the code has it): the price sent to the provider is
    [Math.round (amount * 100)] in binary64 arithmetic; for the amount
    [9.90] it is 990, and for the amount [9.905] it is 990 as well, the
    product [9.905 * 100] being just below 990.5. *)
Theorem price_is_rounded_product
    (user_id : string) (user_data : Handler.UserData.t) (description : string) :
  (∀ amount : Number.t,
     price_of (Handler.billingData user_id user_data amount description)
     = Some (JNum (Math.round (Number.mul amount (Number.of_Z 100)))))
  ∧ price_of (Handler.billingData user_id user_data (Number.literal 990 2)
                                  description)
    = Some (JNum (Number.of_Z 990))
  ∧ price_of (Handler.billingData user_id user_data (Number.literal 9905 3)
                                  description)
    = Some (JNum (Number.of_Z 990)).
Proof.
  split; [reflexivity|].
  split; vm_compute; reflexivity.
Qed.

(** C3, counterexample: the price sent for the amount [9.905]
    is not 991. *)
Lemma price_of_9_905_is_not_991 :
  price_of (Handler.billingData "abc123" Scenario.maria
                                (Number.literal 9905 3)
                                "Assinatura mensal PRAXIS")
  ≠ Some (JNum (Number.of_Z 991)).
Proof. vm_compute. discriminate. Qed.

(** ** The handler *)

Section HandlerProperties.
Import Handler.

Lemma writes_snoc (es : list Effect) (e : Effect) :
  writes (es ++ [e]) = writes es ++ (if is_write e then [e] else []).
Proof.
  unfold writes. rewrite List.filter_app. cbn.
  destruct (is_write e); reflexivity.
Qed.

(** The handler always answers: whatever is thrown inside [try] is turned
    into a response by [catch]. *)
Lemma serve_responds (p : Platform) (req : Request.t) (st : State) :
  ∃ resp st', serve p req st = (inr resp, st').
Proof.
  case_method req; [eauto| |eauto].
  repeat next_case; eauto.
Qed.

(** C10: the product's [externalId] in the body sent to the provider is
    ["praxis-monthly-"] followed by the request's [user_id]; for the user
    ["abc123"] it is ["praxis-monthly-abc123"]; and every provider call
    the handler makes carries the body built from the decoded request. *)
Theorem externalId_is_prefix_and_user_id
    (p : Platform) (req : Request.t) (st : State) :
  (∀ user_id user_data amount description,
     externalId_of (billingData user_id user_data amount description)
     = Some (JStr ("praxis-monthly-" +:+ user_id)))
  ∧ (∀ user_data amount description,
       externalId_of (billingData "abc123" user_data amount description)
       = Some (JStr "praxis-monthly-abc123"))
  ∧ (∀ init,
       In (Fetch init) (effects (serve p req st).2) →
       In (Fetch init) (effects st)
       ∨ ∃ b, Request.json req = inr b
              ∧ externalId_of (RequestInit.body init)
                = Some (JStr ("praxis-monthly-" +:+ BillingRequest.user_id b))).
Proof.
  split; [reflexivity|]. split; [reflexivity|].
  intros init.
  case_method req; [tauto| |tauto].
  repeat next_case;
    rewrite ?in_app_iff; cbn [In];
    intuition (try discriminate);
    match goal with
    | H : Fetch _ = Fetch _ |- _ =>
        injection H as <-; right; eexists; split; reflexivity
    end.
Qed.

(** In the scenario: the one provider call of a successful run. *)
Lemma externalId_is_prefix_and_user_id_witness :
  In (Fetch (abacatePayRequest (Scenario.platform 200 None None)
               (Scenario.billing_request (Number.literal 990 2))))
     (effects Scenario.empty_state)
  ∨ ∃ b, Request.json (Scenario.request "POST" None) = inr b
         ∧ externalId_of
             (RequestInit.body
                (abacatePayRequest (Scenario.platform 200 None None)
                   (Scenario.billing_request (Number.literal 990 2))))
           = Some (JStr ("praxis-monthly-" +:+ BillingRequest.user_id b)).
Proof.
  apply (proj2 (proj2 (externalId_is_prefix_and_user_id
                         (Scenario.platform 200 None None)
                         (Scenario.request "POST" None)
                         Scenario.empty_state))).
  vm_compute. right. right. right. left. reflexivity.
Defined.

(** C1: for a POST request whose body decodes to a billing request, when
    the provider answers with a success status and [data = {id, url}] and
    the datastore accepts both writes, the handler answers 200 with
    [{success: true, billing_id: id, redirect_url: url, message}], and the
    [user_profiles] row of the user and a new [pagamentos] row both exist
    afterwards, carrying the provider's [id]. *)
Theorem provider_success_creates_both_records
    (p : Platform) (req : Request.t) (st : State)
    (b : BillingRequest.t) (res : FetchResponse.t) (d : AbacatePayData.t) :
  Request.method req = "POST" →
  Request.json req = inr b →
  createClient_throws p (default "" (env_get p "SUPABASE_URL"))
                        (default "" (env_get p "SUPABASE_SERVICE_ROLE_KEY"))
  = None →
  fetch p (abacatePayRequest p b) = inr res →
  FetchResponse.ok res = true →
  FetchResponse.json res = inr {| AbacatePayResult.data := Some d |} →
  (∀ db row, upsert_error p db row = None) →
  (∀ db row, insert_error p db row = None) →
  ∃ st',
    serve p req st = (inr (success_response d), st')
    ∧ both_records (AbacatePayData.id d) (BillingRequest.user_id b)
                   (store st) (store st').
Proof.
  intros Hmethod Hjson Hclient Hfetch Hok Hdata Hupsert Hinsert.
  unfold_serve. rewrite Hmethod. reduce.
  rewrite Hjson. reduce. rewrite Hclient. reduce.
  rewrite Hfetch. reduce. rewrite Hok. reduce. rewrite Hdata. reduce.
  rewrite Hupsert. reduce. rewrite Hinsert. reduce.
  eexists. split; [reflexivity|].
  eexists _, _. split; [apply lookup_insert_eq|].
  repeat split.
Qed.

(** In the scenario: the provider answers 200 with [bill_1] and both writes go through. *)
Lemma provider_success_creates_both_records_witness :
  ∃ st',
    serve (Scenario.platform 200 None None)
          (Scenario.request "POST" (Some "Bearer abc123"%string))
          Scenario.empty_state
    = (inr (success_response Scenario.bill_1), st')
    ∧ both_records "bill_1" "abc123" (store Scenario.empty_state) (store st').
Proof.
  exact (provider_success_creates_both_records
           (Scenario.platform 200 None None)
           (Scenario.request "POST" (Some "Bearer abc123"%string))
           Scenario.empty_state
           (Scenario.billing_request (Number.literal 990 2))
           (Scenario.provider_response 200) Scenario.bill_1
           eq_refl eq_refl eq_refl eq_refl eq_refl eq_refl
           (λ _ _, eq_refl) (λ _ _, eq_refl)).
Defined.

(** C2: for a POST request whose body decodes, when the provider answers
    with a non-success status the handler answers 500, the two tables are
    as they were, and no upsert or insert was issued. *)
Theorem provider_failure_writes_nothing
    (p : Platform) (req : Request.t) (st : State)
    (b : BillingRequest.t) (res : FetchResponse.t) :
  Request.method req = "POST" →
  Request.json req = inr b →
  fetch p (abacatePayRequest p b) = inr res →
  FetchResponse.ok res = false →
  ∃ resp st',
    serve p req st = (inr resp, st')
    ∧ Response.status resp = 500%Z
    ∧ store st' = store st
    ∧ writes (effects st') = writes (effects st).
Proof.
  intros Hmethod Hjson Hfetch Hok.
  unfold_serve. rewrite Hmethod. reduce. rewrite Hjson. reduce.
  next_case.
  - eexists _, _. split; [reflexivity|]. reduce.
    rewrite !writes_snoc, !app_nil_r. auto.
  - rewrite Hfetch. reduce. rewrite Hok. reduce.
    eexists _, _. split; [reflexivity|]. reduce.
    rewrite !writes_snoc, !app_nil_r. auto.
Qed.

(** In the scenario: the provider answers 402. *)
Lemma provider_failure_writes_nothing_witness :
  ∃ resp st',
    serve (Scenario.platform 402 None None) (Scenario.request "POST" None)
          Scenario.empty_state
    = (inr resp, st')
    ∧ Response.status resp = 500%Z
    ∧ store st' = store Scenario.empty_state
    ∧ writes (effects st') = writes (effects Scenario.empty_state).
Proof.
  exact (provider_failure_writes_nothing
           (Scenario.platform 402 None None) (Scenario.request "POST" None)
           Scenario.empty_state
           (Scenario.billing_request (Number.literal 990 2))
           (Scenario.provider_response 402)
           eq_refl eq_refl eq_refl eq_refl).
Defined.

(** C4: whatever the request and the surroundings, every upsert the
    handler issues carries [assinatura_ativa = false], and every row of
    [user_profiles] afterwards is a row that was there before or has
    [assinatura_ativa = false]. *)
Theorem assinatura_ativa_never_set
    (p : Platform) (req : Request.t) (st : State) :
  (∀ table row,
     In (Upsert table row) (effects (serve p req st).2) →
     In (Upsert table row) (effects st)
     ∨ UserProfile.assinatura_ativa row = false)
  ∧ (∀ user_id row,
       user_profiles (store (serve p req st).2) !! user_id = Some row →
       user_profiles (store st) !! user_id = Some row
       ∨ UserProfile.assinatura_ativa row = false).
Proof.
  split.
  - intros table row.
    case_method req; [tauto| |tauto].
    repeat next_case;
      rewrite ?in_app_iff; cbn [In];
      intuition (try discriminate);
      match goal with
      | H : Upsert _ _ = Upsert _ _ |- _ =>
          injection H as <- <-; right; reflexivity
      end.
  - intros user_id row.
    case_method req; [tauto| |tauto].
    repeat next_case; try tauto;
      unfold upsert_row, insert_row; cbn [user_profiles UserProfile.user_id];
      (destruct (decide (BillingRequest.user_id t = user_id)) as [<-|Hne];
       [ rewrite lookup_insert_eq; intros [= <-]; right; reflexivity
       | rewrite lookup_insert_ne by exact Hne; tauto ]).
Qed.

(** In the scenario: the row found under ["abc123"] after a successful run. *)
Lemma assinatura_ativa_never_set_witness :
  user_profiles (store Scenario.empty_state) !! "abc123"
  = Some Scenario.written_row
  ∨ UserProfile.assinatura_ativa Scenario.written_row = false.
Proof.
  apply (proj2 (assinatura_ativa_never_set
                  (Scenario.platform 200 None None)
                  (Scenario.request "POST" None) Scenario.empty_state)).
  vm_compute. reflexivity.
Defined.

(** C5 (as the code has it): a POST request is answered either with the
    200 of the success path or with 500 and the body
    [{error: "Falha ao criar cobrança", message}], where [message] is the
    message of the error thrown inside [try]: for a provider answer with a
    non-success status it is ["AbacatePay API error: "] followed by that
    status, and for a failed upsert it is the datastore error's message. *)
Theorem failure_response_carries_error_message
    (p : Platform) (req : Request.t) (st : State) :
  Request.method req = "POST" →
  (∃ resp st',
     serve p req st = (inr resp, st')
     ∧ (Response.status resp = 200%Z
        ∨ ∃ message,
            resp = Response.New
                     (Some (Response.Stringify (failure_body message)))
                     500 json_headers))
  ∧ (∀ b res,
       Request.json req = inr b →
       createClient_throws p (default "" (env_get p "SUPABASE_URL"))
         (default "" (env_get p "SUPABASE_SERVICE_ROLE_KEY")) = None →
       fetch p (abacatePayRequest p b) = inr res →
       (FetchResponse.ok res = false →
        (serve p req st).1
        = inr (Response.New
                 (Some (Response.Stringify
                    (failure_body ("AbacatePay API error: "
                                   +:+ pretty (FetchResponse.status res)))))
                 500 json_headers))
       ∧ (∀ d e,
            FetchResponse.ok res = true →
            FetchResponse.json res = inr {| AbacatePayResult.data := Some d |} →
            (∀ db row, upsert_error p db row = Some e) →
            (serve p req st).1
            = inr (Response.New
                     (Some (Response.Stringify (failure_body (Error.message e))))
                     500 json_headers))).
Proof.
  intros Hmethod. split.
  - unfold_serve. rewrite Hmethod. reduce.
    repeat next_case;
      (eexists _, _; split; [reflexivity|]; reduce;
       first [ left; reflexivity | right; eexists; reflexivity ]).
  - intros b res Hjson Hclient Hfetch. split.
    + intros Hok.
      unfold_serve. rewrite Hmethod. reduce. rewrite Hjson. reduce.
      rewrite Hclient. reduce. rewrite Hfetch. reduce. rewrite Hok. reduce.
      reflexivity.
    + intros d e Hok Hdata Hupsert.
      unfold_serve. rewrite Hmethod. reduce. rewrite Hjson. reduce.
      rewrite Hclient. reduce. rewrite Hfetch. reduce. rewrite Hok. reduce.
      rewrite Hdata. reduce. rewrite Hupsert. reduce.
      reflexivity.
Qed.

(** In the scenario: the provider answers 402. *)
Lemma failure_response_carries_error_message_witness :
  (serve (Scenario.platform 402 None None) (Scenario.request "POST" None)
         Scenario.empty_state).1
  = inr (Response.New
           (Some (Response.Stringify
              (failure_body "AbacatePay API error: 402")))
           500 json_headers).
Proof.
  exact (proj1 (proj2 (failure_response_carries_error_message
                         (Scenario.platform 402 None None)
                         (Scenario.request "POST" None)
                         Scenario.empty_state eq_refl)
                 (Scenario.billing_request (Number.literal 990 2))
                 (Scenario.provider_response 402)
                 eq_refl eq_refl eq_refl)
           eq_refl).
Defined.

(** C5, counterexample: two failures of the same request, one
    at the provider (status 402) and one at the upsert, are both answered
    with 500, and the two responses differ, so the response tells the
    caller which step failed. *)
Lemma failed_step_shows_in_response :
  (serve (Scenario.platform 402 None None) (Scenario.request "POST" None)
         Scenario.empty_state).1
  = inr (Response.New
           (Some (Response.Stringify
              (failure_body "AbacatePay API error: 402")))
           500 json_headers)
  ∧ (serve (Scenario.platform 200 (Some Scenario.unique_violation) None)
           (Scenario.request "POST" None) Scenario.empty_state).1
    = inr (Response.New
             (Some (Response.Stringify
                (failure_body
                   "duplicate key value violates unique constraint")))
             500 json_headers)
  ∧ (serve (Scenario.platform 402 None None) (Scenario.request "POST" None)
           Scenario.empty_state).1
    ≠ (serve (Scenario.platform 200 (Some Scenario.unique_violation) None)
             (Scenario.request "POST" None) Scenario.empty_state).1.
Proof.
  split; [vm_compute; reflexivity|].
  split; [vm_compute; reflexivity|].
  vm_compute. discriminate.
Qed.

(** C6: two requests with the same method and the same body are answered
    alike and leave the same state, whatever their headers are. *)
Theorem headers_do_not_matter
    (p : Platform) (r1 r2 : Request.t) (st : State) :
  Request.method r1 = Request.method r2 →
  Request.json r1 = Request.json r2 →
  serve p r1 st = serve p r2 st.
Proof.
  intros Hmethod Hjson.
  unfold serve, create_billing, req_json.
  rewrite Hmethod, Hjson. reflexivity.
Qed.

(** In the scenario: the same POST with and without an [Authorization] header. *)
Lemma headers_do_not_matter_witness :
  serve (Scenario.platform 200 None None)
        (Scenario.request "POST" (Some "Bearer abc123"%string))
        Scenario.empty_state
  = serve (Scenario.platform 200 None None)
          (Scenario.request "POST" None)
          Scenario.empty_state.
Proof.
  exact (headers_do_not_matter
           (Scenario.platform 200 None None)
           (Scenario.request "POST" (Some "Bearer abc123"%string))
           (Scenario.request "POST" None)
           Scenario.empty_state eq_refl eq_refl).
Defined.

(** C7: an OPTIONS request is answered with status 200, a [null] body and
    the cross-origin headers; a request whose method is neither OPTIONS nor
    POST is answered with status 405 and the cross-origin headers; in both
    cases the body is not read and nothing else is done. *)
Theorem method_gate
    (p : Platform) (req : Request.t) (st : State) :
  (Request.method req = "OPTIONS" →
   serve p req st = (inr (Response.New None 200 corsHeaders), st))
  ∧ (Request.method req ≠ "OPTIONS" →
     Request.method req ≠ "POST" →
     serve p req st
     = (inr (Response.New (Some (Response.Text "Method not allowed")) 405
                          corsHeaders), st)).
Proof.
  split.
  - intros Hopt. unfold serve. rewrite Hopt. reflexivity.
  - intros Hopt Hpost. unfold serve.
    apply String.eqb_neq in Hopt, Hpost. rewrite Hopt, Hpost. reflexivity.
Qed.

(** In the scenario: an OPTIONS and a GET request. *)
Lemma method_gate_witness :
  serve (Scenario.platform 200 None None) (Scenario.request "OPTIONS" None)
        Scenario.empty_state
  = (inr (Response.New None 200 corsHeaders), Scenario.empty_state)
  ∧ serve (Scenario.platform 200 None None) (Scenario.request "GET" None)
          Scenario.empty_state
    = (inr (Response.New (Some (Response.Text "Method not allowed")) 405
                         corsHeaders), Scenario.empty_state).
Proof.
  split.
  - exact (proj1 (method_gate (Scenario.platform 200 None None)
                    (Scenario.request "OPTIONS" None) Scenario.empty_state)
             eq_refl).
  - apply (proj2 (method_gate (Scenario.platform 200 None None)
                    (Scenario.request "GET" None) Scenario.empty_state));
      discriminate.
Defined.

End HandlerProperties.

(** ** The page *)

Section PageProperties.
Import SubscriptionPage.

(** Without the separator, [split_0] is the whole string. *)
Lemma split_0_absent (sep : ascii) (s : string) :
  occurs sep s = false → split_0 sep s = s.
Proof.
  induction s as [|c rest IH]; cbn [split_0 occurs]; [reflexivity|].
  destruct (Ascii.eqb c sep); cbn [orb]; [discriminate|].
  intros H. rewrite IH by exact H. reflexivity.
Qed.

(** [split_0] gives what stands before the first separator. *)
Lemma split_0_local_part (sep : ascii) (local rest : string) :
  occurs sep local = false →
  split_0 sep (local +:+ String sep rest) = local.
Proof.
  induction local as [|c l IH]; simpl.
  - rewrite Ascii.eqb_refl. reflexivity.
  - destruct (Ascii.eqb c sep); cbn [orb]; [discriminate|].
    intros H. rewrite IH by exact H. reflexivity.
Qed.

(** [a || b] is [a] when [a] is a non-empty string, and [b] when [a] is
    [undefined] or empty. *)
Lemma or_else_truthy (s : string) (b : option string) :
  s ≠ ""%string → or_else (Some s) b = Some s.
Proof.
  intros Hs. unfold or_else. cbn [fmap option_fmap option_map truthy].
  destruct (String.eqb_spec s ""); [contradiction | reflexivity].
Qed.

Lemma or_else_blank (a b : option string) :
  blank a → or_else a b = b.
Proof. intros [-> | ->]; reflexivity. Qed.

Lemma or_literal_truthy (s literal : string) :
  s ≠ ""%string → or_literal (Some s) literal = s.
Proof.
  intros Hs. unfold or_literal. rewrite or_else_truthy by exact Hs. reflexivity.
Qed.

Lemma or_literal_blank (a : option string) (literal : string) :
  blank a → or_literal a literal = literal.
Proof. intros [-> | ->]; reflexivity. Qed.

(** The [name] and the [cpf] the page sends, in terms of [||]. *)
Lemma payload_name (user : User.t) :
  user_data_of "name" (payload user)
  = Some (JStr (or_literal
                  (or_else (User.user_metadata user ≫= UserMetadata.full_name)
                           (split_0 "@" <$> User.email user))
                  "Cliente")).
Proof. reflexivity. Qed.

Lemma payload_cpf (user : User.t) :
  user_data_of "cpf" (payload user)
  = Some (JStr (or_literal (User.user_metadata user ≫= UserMetadata.cpf)
                           "00000000000")).
Proof. destruct user as [id [e|] m]; reflexivity. Qed.

(** C8: in the body the page sends, [name] is the profile's [full_name]
    when there is a non-empty one, otherwise what precedes ['@'] in the
    email when that is non-empty, otherwise ["Cliente"]; [cpf] is the
    profile's [cpf] when there is a non-empty one and ["00000000000"] when
    there is none; [amount] is the number [9.90] and [description] is
    ["Assinatura mensal PRAXIS"]. *)
Theorem payload_fields (user : User.t) :
  (∀ s, User.user_metadata user ≫= UserMetadata.full_name = Some s →
        s ≠ ""%string →
        user_data_of "name" (payload user) = Some (JStr s))
  ∧ (∀ e, blank (User.user_metadata user ≫= UserMetadata.full_name) →
          User.email user = Some e →
          split_0 "@" e ≠ ""%string →
          user_data_of "name" (payload user) = Some (JStr (split_0 "@" e)))
  ∧ (∀ local domain,
       blank (User.user_metadata user ≫= UserMetadata.full_name) →
       User.email user = Some (local +:+ String "@" domain) →
       occurs "@" local = false →
       local ≠ ""%string →
       user_data_of "name" (payload user) = Some (JStr local))
  ∧ (blank (User.user_metadata user ≫= UserMetadata.full_name) →
     blank (split_0 "@" <$> User.email user) →
     user_data_of "name" (payload user) = Some (JStr "Cliente"))
  ∧ (∀ c, User.user_metadata user ≫= UserMetadata.cpf = Some c →
          c ≠ ""%string →
          user_data_of "cpf" (payload user) = Some (JStr c))
  ∧ (User.user_metadata user ≫= UserMetadata.cpf = None →
     user_data_of "cpf" (payload user) = Some (JStr "00000000000"))
  ∧ jget "amount" (payload user) = Some (JNum (Number.literal 990 2))
  ∧ jget "description" (payload user) = Some (JStr "Assinatura mensal PRAXIS")
  ∧ jget "user_id" (payload user) = Some (JStr (User.id user)).
Proof.
  repeat split.
  - intros s Hfull Hs. rewrite payload_name, Hfull.
    rewrite or_else_truthy by exact Hs. rewrite or_literal_truthy by exact Hs.
    reflexivity.
  - intros e Hfull Hemail He. rewrite payload_name, Hemail.
    rewrite or_else_blank by exact Hfull. cbn [fmap option_fmap option_map].
    rewrite or_literal_truthy by exact He. reflexivity.
  - intros local domain Hfull Hemail Hlocal Hne. rewrite payload_name, Hemail.
    rewrite or_else_blank by exact Hfull. cbn [fmap option_fmap option_map].
    rewrite split_0_local_part by exact Hlocal.
    rewrite or_literal_truthy by exact Hne. reflexivity.
  - intros Hfull Hemail. rewrite payload_name.
    rewrite or_else_blank by exact Hfull.
    rewrite or_literal_blank by exact Hemail. reflexivity.
  - intros c Hcpf Hc. rewrite payload_cpf, Hcpf.
    rewrite or_literal_truthy by exact Hc. reflexivity.
  - intros Hcpf. rewrite payload_cpf, Hcpf. reflexivity.
Qed.

(** In the scenario: a user with a full name and no cpf. *)
Lemma payload_fields_witness :
  user_data_of "name" (payload Scenario.maria_user)
  = Some (JStr "Maria Silva")
  ∧ user_data_of "cpf" (payload Scenario.maria_user)
    = Some (JStr "00000000000").
Proof.
  split.
  - apply (proj1 (payload_fields Scenario.maria_user));
      [reflexivity | discriminate].
  - apply (proj1 (proj2 (proj2 (proj2 (proj2 (proj2
             (payload_fields Scenario.maria_user))))))).
    reflexivity.
Defined.

(** The page's body in the end-to-end scenario: a user with a full name
    and an email and no cpf. *)
Example payload_of_maria :
  payload Scenario.maria_user
  = JObj [
      ("user_id", JStr "abc123");
      ("user_data", JObj [
         ("name", JStr "Maria Silva");
         ("email", JStr "maria@x.com");
         ("cpf", JStr "00000000000")]);
      ("amount", JNum (Number.literal 990 2));
      ("description", JStr "Assinatura mensal PRAXIS")].
Proof. reflexivity. Qed.

(** C9: without a signed-in user, [handleSubscribe] shows the message,
    navigates to the login route and returns; nothing else happens, so no
    request is sent and the busy flag is untouched. *)
Theorem no_user_no_request (p : Platform) (st : State) :
  handleSubscribe p None st
  = (inr tt,
     {| isLoading := isLoading st;
        effects := effects st
                   ++ [ToastError "Você precisa estar logado para assinar";
                       Navigate "/auth/login"] |})
  ∧ List.filter is_fetch (effects (handleSubscribe p None st).2)
    = List.filter is_fetch (effects st).
Proof.
  assert (Hrun : handleSubscribe p None st
                 = (inr tt,
                    {| isLoading := isLoading st;
                       effects := effects st
                         ++ [ToastError "Você precisa estar logado para assinar";
                             Navigate "/auth/login"] |})).
  { unfold handleSubscribe, emit, modify, mbind, Eff_bind, bind.
    cbn [isLoading effects]. rewrite <- app_assoc. reflexivity. }
  split; [exact Hrun|].
  rewrite Hrun. cbn [snd effects]. rewrite List.filter_app. cbn.
  apply app_nil_r.
Qed.

End PageProperties.

(** ** More on the handler: every outcome of a request *)

Section HandlerOutcomes.
Import Handler.

Lemma calls_snoc (es : list Effect) (e : Effect) :
  calls (es ++ [e]) = calls es ++ (if is_call e then [e] else []).
Proof.
  unfold calls. rewrite List.filter_app. cbn.
  destruct (is_call e); reflexivity.
Qed.

(** X1: every request is answered (nothing escapes the [catch]); the
    answer starts with the two cross-origin headers; its status is 200,
    405 or 500, and a POST is never answered 405. *)
Theorem every_answer_has_cors_headers
    (p : Platform) (req : Request.t) (st : State) :
  ∃ resp st' more,
    serve p req st = (inr resp, st')
    ∧ Response.headers resp = corsHeaders ++ more
    ∧ (Response.status resp = 200%Z
       ∨ (Response.status resp = 405%Z ∧ Request.method req ≠ "POST"%string)
       ∨ Response.status resp = 500%Z).
Proof.
  case_method req.
  - eexists _, _, []. split; [reflexivity|]. split; [reflexivity|]. tauto.
  - repeat next_case;
      (eexists _, _, _; split; [reflexivity|]; split; [reflexivity|];
       cbn; tauto).
  - eexists _, _, []. split; [reflexivity|]. split; [reflexivity|].
    right. left. split; [reflexivity|].
    intros Hpost. rewrite Hpost in *. discriminate.
Qed.

(** The run in which the provider answers and both writes go through. *)
Lemma run_success (p : Platform) (req : Request.t) (st : State)
    (b : BillingRequest.t) (d : AbacatePayData.t) :
  provider_answers p req b d →
  upsert_error p (store st) (subscription_row p (dates st) b d) = None →
  insert_error p (upsert_row (subscription_row p (dates st) b d) (store st))
               (payment_row b d) = None →
  ∃ st',
    serve p req st = (inr (success_response d), st')
    ∧ store st'
      = insert_row (payment_row b d)
          (upsert_row (subscription_row p (dates st) b d) (store st))
    ∧ dates st' = S (S (S (dates st)))
    ∧ calls (effects st')
      = calls (effects st)
        ++ [Fetch (abacatePayRequest p b);
            Upsert "user_profiles" (subscription_row p (dates st) b d);
            Insert "pagamentos" (payment_row b d)].
Proof.
  intros (Hmethod & Hjson & Hclient & res & Hfetch & Hok & Hdata).
  unfold subscription_row, payment_row. intros Hupsert Hinsert.
  unfold_serve. rewrite Hmethod. reduce.
  rewrite Hjson. reduce. rewrite Hclient. reduce.
  rewrite Hfetch. reduce. rewrite Hok. reduce. rewrite Hdata. reduce.
  rewrite Hupsert. reduce. rewrite Hinsert. reduce.
  eexists. split; [reflexivity|]. reduce.
  split; [reflexivity|]. split; [reflexivity|].
  rewrite !calls_snoc. cbn [is_call]. rewrite !app_nil_r, <- !app_assoc.
  reflexivity.
Qed.

(** X2: a POST whose body cannot be decoded is answered 500 with the
    decoding error's message, and nothing happens besides reading the body
    and logging: no client, no provider call, no write, no date. *)
Theorem undecodable_body_stops_at_once
    (p : Platform) (req : Request.t) (st : State) (e : Error.t) :
  Request.method req = "POST" →
  Request.json req = inl e →
  serve p req st
  = (inr (failure_response e),
     {| store := store st; dates := dates st;
        effects := effects st
                   ++ [ReadBody;
                       ConsoleError ["Error creating AbacatePay billing:";
                                     Error.message e]] |}).
Proof.
  intros Hmethod Hjson.
  unfold_serve. rewrite Hmethod. reduce. rewrite Hjson. reduce.
  rewrite <- app_assoc. reflexivity.
Qed.

(** In the scenario: a POST without a JSON body. *)
Lemma undecodable_body_stops_at_once_witness :
  serve (Scenario.platform 200 None None) Cases.undecodable
        Scenario.empty_state
  = (inr (failure_response (Error.New "Unexpected end of JSON input")),
     {| store := store Scenario.empty_state; dates := 0;
        effects := [ReadBody;
                    ConsoleError ["Error creating AbacatePay billing:";
                                  "Unexpected end of JSON input"]] |}).
Proof.
  exact (undecodable_body_stops_at_once
           (Scenario.platform 200 None None) Cases.undecodable
           Scenario.empty_state (Error.New "Unexpected end of JSON input")
           eq_refl eq_refl).
Defined.


(** X3: the provider is called only for a POST whose body decoded and for
    which the datastore client could be created; in particular a failing
    [createClient] costs no provider call. *)
Theorem provider_called_only_after_client
    (p : Platform) (req : Request.t) (st : State) (init : RequestInit.t) :
  In (Fetch init) (calls (effects (serve p req st).2)) →
  ¬ In (Fetch init) (calls (effects st)) →
  Request.method req = "POST"
  ∧ ∃ b, Request.json req = inr b
         ∧ init = abacatePayRequest p b
         ∧ createClient_throws p
             (default "" (env_get p "SUPABASE_URL"))
             (default "" (env_get p "SUPABASE_SERVICE_ROLE_KEY")) = None.
Proof.
  case_method req; [tauto| |tauto].
  apply String.eqb_eq in Heqb0.
  repeat next_case;
    rewrite ?calls_snoc; cbn [is_call]; rewrite ?app_nil_r, ?in_app_iff;
    cbn [In];
    intros Hin Hnot; decompose [or] Hin; try tauto; try discriminate;
    match goal with
    | H : Fetch _ = Fetch _ |- _ =>
        injection H as <-; split; [assumption|];
        eexists; repeat split
    end.
Qed.

(** In the scenario: the provider call of a successful run. *)
Lemma provider_called_only_after_client_witness :
  Request.method Cases.the_request = "POST"
  ∧ ∃ b, Request.json Cases.the_request = inr b
         ∧ abacatePayRequest (Scenario.platform 200 None None) Cases.the_body
           = abacatePayRequest (Scenario.platform 200 None None) b
         ∧ createClient_throws (Scenario.platform 200 None None)
             (default "" (env_get (Scenario.platform 200 None None)
                                  "SUPABASE_URL"))
             (default "" (env_get (Scenario.platform 200 None None)
                                  "SUPABASE_SERVICE_ROLE_KEY")) = None.
Proof.
  apply (provider_called_only_after_client
           (Scenario.platform 200 None None) Cases.the_request
           Scenario.empty_state).
  - vm_compute. left. reflexivity.
  - vm_compute. tauto.
Defined.


(** X4: when the provider answered and the upsert reports an error, the
    handler answers 500 with that error's message; both tables are as they
    were and no insert is attempted, although the provider was called. *)
Theorem failed_upsert_leaves_tables
    (p : Platform) (req : Request.t) (st : State)
    (b : BillingRequest.t) (d : AbacatePayData.t) (e : Error.t) :
  provider_answers p req b d →
  upsert_error p (store st) (subscription_row p (dates st) b d) = Some e →
  ∃ st',
    serve p req st = (inr (failure_response e), st')
    ∧ store st' = store st
    ∧ calls (effects st')
      = calls (effects st)
        ++ [Fetch (abacatePayRequest p b);
            Upsert "user_profiles" (subscription_row p (dates st) b d)].
Proof.
  intros (Hmethod & Hjson & Hclient & res & Hfetch & Hok & Hdata).
  unfold subscription_row. intros Hupsert.
  unfold_serve. rewrite Hmethod. reduce.
  rewrite Hjson. reduce. rewrite Hclient. reduce.
  rewrite Hfetch. reduce. rewrite Hok. reduce. rewrite Hdata. reduce.
  rewrite Hupsert. reduce.
  eexists. split; [reflexivity|]. reduce. split; [reflexivity|].
  rewrite !calls_snoc. cbn [is_call]. rewrite !app_nil_r, <- !app_assoc.
  reflexivity.
Qed.

(** In the scenario: the upsert hits a unique constraint. *)
Lemma failed_upsert_leaves_tables_witness :
  ∃ st',
    serve (Scenario.platform 200 (Some Scenario.unique_violation) None)
          Cases.the_request Scenario.empty_state
    = (inr (failure_response Scenario.unique_violation), st')
    ∧ store st' = store Scenario.empty_state
    ∧ calls (effects st')
      = calls (effects Scenario.empty_state)
        ++ [Fetch (abacatePayRequest
                     (Scenario.platform 200 (Some Scenario.unique_violation)
                                        None) Cases.the_body);
            Upsert "user_profiles"
              (subscription_row
                 (Scenario.platform 200 (Some Scenario.unique_violation) None)
                 0 Cases.the_body Scenario.bill_1)].
Proof.
  apply (failed_upsert_leaves_tables
           (Scenario.platform 200 (Some Scenario.unique_violation) None)
           Cases.the_request Scenario.empty_state Cases.the_body
           Scenario.bill_1 Scenario.unique_violation).
  - provider_answers_here.
  - reflexivity.
Defined.


(** X5: when the upsert went through and the insert reports an error, the
    handler answers 500 with that error's message, and the tables are left
    half-written: the user's [user_profiles] row carries the new billing
    identifier while [pagamentos] has no row for it. *)
Theorem failed_insert_keeps_subscription_row
    (p : Platform) (req : Request.t) (st : State)
    (b : BillingRequest.t) (d : AbacatePayData.t) (e : Error.t) :
  provider_answers p req b d →
  upsert_error p (store st) (subscription_row p (dates st) b d) = None →
  insert_error p (upsert_row (subscription_row p (dates st) b d) (store st))
               (payment_row b d) = Some e →
  ∃ st',
    serve p req st = (inr (failure_response e), st')
    ∧ user_profiles (store st') !! BillingRequest.user_id b
      = Some (subscription_row p (dates st) b d)
    ∧ pagamentos (store st') = pagamentos (store st).
Proof.
  intros (Hmethod & Hjson & Hclient & res & Hfetch & Hok & Hdata).
  unfold subscription_row, payment_row. intros Hupsert Hinsert.
  unfold_serve. rewrite Hmethod. reduce.
  rewrite Hjson. reduce. rewrite Hclient. reduce.
  rewrite Hfetch. reduce. rewrite Hok. reduce. rewrite Hdata. reduce.
  rewrite Hupsert. reduce. rewrite Hinsert. reduce.
  eexists. split; [reflexivity|]. reduce.
  split; [apply lookup_insert_eq | reflexivity].
Qed.

(** In the scenario: the insert hits a unique constraint. *)
Lemma failed_insert_keeps_subscription_row_witness :
  ∃ st',
    serve (Scenario.platform 200 None (Some Scenario.unique_violation))
          Cases.the_request Scenario.empty_state
    = (inr (failure_response Scenario.unique_violation), st')
    ∧ user_profiles (store st') !! "abc123" = Some Scenario.written_row
    ∧ pagamentos (store st') = [].
Proof.
  apply (failed_insert_keeps_subscription_row
           (Scenario.platform 200 None (Some Scenario.unique_violation))
           Cases.the_request Scenario.empty_state Cases.the_body
           Scenario.bill_1 Scenario.unique_violation).
  - provider_answers_here.
  - reflexivity.
  - reflexivity.
Defined.


(** X6: a provider answer with a success status whose body cannot be
    parsed, or has no [data], is answered 500 and writes nothing. *)
Theorem unusable_provider_answer_writes_nothing
    (p : Platform) (req : Request.t) (st : State)
    (b : BillingRequest.t) (res : FetchResponse.t) :
  Request.method req = "POST" →
  Request.json req = inr b →
  fetch p (abacatePayRequest p b) = inr res →
  FetchResponse.ok res = true →
  (∀ d, FetchResponse.json res ≠ inr {| AbacatePayResult.data := Some d |}) →
  ∃ resp st',
    serve p req st = (inr resp, st')
    ∧ Response.status resp = 500%Z
    ∧ store st' = store st
    ∧ writes (effects st') = writes (effects st).
Proof.
  intros Hmethod Hjson Hfetch Hok Hdata.
  unfold_serve. rewrite Hmethod. reduce. rewrite Hjson. reduce.
  next_case.
  - eexists _, _. split; [reflexivity|]. reduce.
    rewrite !writes_snoc, !app_nil_r. auto.
  - rewrite Hfetch. reduce. rewrite Hok. reduce.
    destruct (FetchResponse.json res) as [e|[[d|]]] eqn:Hres; reduce.
    + eexists _, _. split; [reflexivity|]. reduce.
      rewrite !writes_snoc, !app_nil_r. auto.
    + exfalso. exact (Hdata d eq_refl).
    + eexists _, _. split; [reflexivity|]. reduce.
      rewrite !writes_snoc, !app_nil_r. auto.
Qed.

(** In the scenario: the provider answers 200 with a body without [data]. *)
Lemma unusable_provider_answer_writes_nothing_witness :
  ∃ resp st',
    serve (Cases.provider_says (inr {| AbacatePayResult.data := None |}))
          Cases.the_request Scenario.empty_state
    = (inr resp, st')
    ∧ Response.status resp = 500%Z
    ∧ store st' = store Scenario.empty_state
    ∧ writes (effects st') = writes (effects Scenario.empty_state).
Proof.
  apply (unusable_provider_answer_writes_nothing
           (Cases.provider_says (inr {| AbacatePayResult.data := None |}))
           Cases.the_request Scenario.empty_state Cases.the_body
           {| FetchResponse.status := 200; FetchResponse.text := "";
              FetchResponse.json := inr {| AbacatePayResult.data := None |} |});
    try reflexivity.
  intros d. discriminate.
Defined.


(** X7: [pagamentos] only ever grows, by at most one row per request: a
    POST answered 200 appended exactly one row, with the request's user and
    unrounded amount, method ["pix"], status ["pending"] and the billing
    identifier in both reference columns; every other outcome leaves the
    table as it was, and for a POST that outcome is a 500. *)
Theorem pagamentos_grows_by_one_pending_row
    (p : Platform) (req : Request.t) (st : State) :
  ∃ resp st',
    serve p req st = (inr resp, st')
    ∧ ((Request.method req = "POST"%string
        ∧ Response.status resp = 200%Z
        ∧ ∃ b d, Request.json req = inr b
                 ∧ pagamentos (store st')
                   = pagamentos (store st) ++ [payment_row b d])
       ∨ (pagamentos (store st') = pagamentos (store st)
          ∧ (Request.method req = "POST"%string →
             Response.status resp = 500%Z))).
Proof.
  case_method req.
  - eexists _, _. split; [reflexivity|]. right. split; [reflexivity|].
    intros Hpost. rewrite Hpost in *. discriminate.
  - apply String.eqb_eq in Heqb0.
    repeat next_case;
      (eexists _, _; split; [reflexivity|]; reduce;
       first [ right; split; reflexivity
             | left; split; [assumption|]; split; [reflexivity|];
               eexists _, _; split; reflexivity ]).
  - eexists _, _. split; [reflexivity|]. right. split; [reflexivity|].
    intros Hpost. rewrite Hpost in *. discriminate.
Qed.

(** X8: the handler touches no other user's subscription: a row of
    [user_profiles] under a key that is not the request's [user_id] is
    after the request what it was before. *)
Theorem other_users_rows_untouched
    (p : Platform) (req : Request.t) (st : State) (other : string) :
  (∀ b, Request.json req = inr b → BillingRequest.user_id b ≠ other) →
  user_profiles (store (serve p req st).2) !! other
  = user_profiles (store st) !! other.
Proof.
  intros Hother.
  case_method req; [reflexivity| |reflexivity].
  repeat next_case; try reflexivity;
    unfold upsert_row, insert_row; cbn [user_profiles UserProfile.user_id];
    apply lookup_insert_ne; apply Hother; reflexivity.
Qed.

(** In the scenario: a successful request of ["abc123"], seen from the
    key of another user. *)
Lemma other_users_rows_untouched_witness :
  user_profiles
    (store (serve (Scenario.platform 200 None None) Cases.the_request
                  Scenario.empty_state).2) !! "someone-else"
  = user_profiles (store Scenario.empty_state) !! "someone-else".
Proof.
  apply other_users_rows_untouched.
  intros b [= <-]. discriminate.
Defined.


(** X9: one request makes at most one provider call, one upsert and one
    insert, in that order: there is no write before the provider was
    called and no insert without the upsert before it. *)
Theorem calls_come_in_order
    (p : Platform) (req : Request.t) (st : State) :
  ∃ new,
    calls (effects (serve p req st).2) = calls (effects st) ++ new
    ∧ (new = []
       ∨ (∃ init, new = [Fetch init])
       ∨ (∃ init row, new = [Fetch init; Upsert "user_profiles" row])
       ∨ (∃ init row pay,
            new = [Fetch init; Upsert "user_profiles" row;
                   Insert "pagamentos" pay])).
Proof.
  case_method req;
    [ exists []; rewrite app_nil_r; auto | | exists []; rewrite app_nil_r; auto ].
  repeat next_case;
    rewrite !calls_snoc; cbn [is_call]; rewrite ?app_nil_r, <- ?app_assoc;
    cbn [app];
    (eexists; split; [first [reflexivity | symmetry; apply app_nil_r]|]);
    eauto 8.
Qed.

(** X10: the handler is not idempotent.  Two requests of the same user
    that both succeed leave one [user_profiles] row, carrying the second
    billing identifier, and two [pagamentos] rows, one per billing. *)
Theorem second_request_overwrites_and_appends
    (p1 p2 : Platform) (req : Request.t) (st : State)
    (b : BillingRequest.t) (d1 d2 : AbacatePayData.t) :
  provider_answers p1 req b d1 →
  provider_answers p2 req b d2 →
  (∀ db row, upsert_error p1 db row = None) →
  (∀ db row, insert_error p1 db row = None) →
  (∀ db row, upsert_error p2 db row = None) →
  (∀ db row, insert_error p2 db row = None) →
  ∃ st1 st2,
    serve p1 req st = (inr (success_response d1), st1)
    ∧ serve p2 req st1 = (inr (success_response d2), st2)
    ∧ user_profiles (store st2) !! BillingRequest.user_id b
      = Some (subscription_row p2 (dates st1) b d2)
    ∧ pagamentos (store st2)
      = pagamentos (store st) ++ [payment_row b d1; payment_row b d2].
Proof.
  intros H1 H2 Hu1 Hi1 Hu2 Hi2.
  destruct (run_success p1 req st b d1 H1 (Hu1 _ _) (Hi1 _ _))
    as (st1 & Hrun1 & Hstore1 & _ & _).
  destruct (run_success p2 req st1 b d2 H2 (Hu2 _ _) (Hi2 _ _))
    as (st2 & Hrun2 & Hstore2 & _ & _).
  exists st1, st2. split; [exact Hrun1|]. split; [exact Hrun2|].
  rewrite Hstore2, Hstore1. unfold insert_row, upsert_row.
  cbn [user_profiles pagamentos]. split.
  - apply lookup_insert_eq.
  - rewrite <- app_assoc. reflexivity.
Qed.

(** In the scenario: the provider gives [bill_1], then [bill_2]. *)
Lemma second_request_overwrites_and_appends_witness :
  ∃ st1 st2,
    serve (Cases.provider_gives Scenario.bill_1) Cases.the_request
          Scenario.empty_state
    = (inr (success_response Scenario.bill_1), st1)
    ∧ serve (Cases.provider_gives Cases.bill_2) Cases.the_request st1
      = (inr (success_response Cases.bill_2), st2)
    ∧ user_profiles (store st2) !! "abc123"
      = Some (subscription_row (Cases.provider_gives Cases.bill_2)
                               (dates st1) Cases.the_body Cases.bill_2)
    ∧ pagamentos (store st2)
      = [] ++ [payment_row Cases.the_body Scenario.bill_1;
               payment_row Cases.the_body Cases.bill_2].
Proof.
  apply (second_request_overwrites_and_appends
           (Cases.provider_gives Scenario.bill_1)
           (Cases.provider_gives Cases.bill_2)
           Cases.the_request Scenario.empty_state Cases.the_body
           Scenario.bill_1 Cases.bill_2);
    first [ provider_answers_here | intros; reflexivity ].
Defined.


(** X11: a missing provider token is not detected: when
    [ABACATEPAY_API_TOKEN] is not set, the provider is still called, with
    the header [Authorization: Bearer undefined]. *)
Theorem missing_token_is_sent_as_undefined
    (p : Platform) (req : Request.t) (st : State) (b : BillingRequest.t) :
  Request.method req = "POST" →
  Request.json req = inr b →
  createClient_throws p (default "" (env_get p "SUPABASE_URL"))
                        (default "" (env_get p "SUPABASE_SERVICE_ROLE_KEY"))
  = None →
  env_get p "ABACATEPAY_API_TOKEN" = None →
  ∃ init,
    In (Fetch init) (effects (serve p req st).2)
    ∧ RequestInit.headers init
      = [("Content-Type", "application/json");
         ("Authorization", "Bearer undefined")]%string.
Proof.
  intros Hmethod Hjson Hclient Htoken.
  assert (Hinit : RequestInit.headers (abacatePayRequest p b)
                  = [("Content-Type", "application/json");
                     ("Authorization", "Bearer undefined")]%string).
  { unfold abacatePayRequest. cbn [RequestInit.headers].
    rewrite Htoken. reflexivity. }
  exists (abacatePayRequest p b). split; [|exact Hinit].
  unfold_serve. rewrite Hmethod. reduce. rewrite Hjson. reduce.
  rewrite Hclient. reduce.
  repeat next_case; rewrite !in_app_iff; cbn [In]; tauto.
Qed.

(** In the scenario: no variable is set and the provider answers 401. *)
Lemma missing_token_is_sent_as_undefined_witness :
  ∃ init,
    In (Fetch init)
       (effects (serve Cases.unconfigured Cases.the_request
                       Scenario.empty_state).2)
    ∧ RequestInit.headers init
      = [("Content-Type", "application/json");
         ("Authorization", "Bearer undefined")]%string.
Proof.
  apply (missing_token_is_sent_as_undefined
           Cases.unconfigured Cases.the_request Scenario.empty_state
           Cases.the_body); reflexivity.
Defined.
End HandlerOutcomes.

(** ** More on the amount: two-decimal prices *)

Lemma number_eqb_eq (x y : Number.t) : number_eqb x y = true → x = y.
Proof.
  destruct x as [s|s| |s m e], y as [s'|s'| |s' m' e']; cbn;
    try discriminate; try reflexivity.
  - intros H. apply Bool.eqb_prop in H. congruence.
  - intros H. apply Bool.eqb_prop in H. congruence.
  - intros H. apply andb_prop in H as [H He]. apply andb_prop in H as [Hs Hm].
    apply Bool.eqb_prop in Hs. apply Pos.eqb_eq in Hm. apply Z.eqb_eq in He.
    congruence.
Qed.

Lemma cents_exact_from_covers (count : nat) (first c : Z) :
  cents_exact_from first count = true →
  (first ≤ c < first + Z.of_nat count)%Z →
  cents_exact c = true.
Proof.
  revert first. induction count as [|n IH]; intros first Hall Hc.
  - lia.
  - cbn [cents_exact_from] in Hall. apply andb_prop in Hall as [Hfirst Hrest].
    destruct (Z.eq_dec c first) as [->|Hne]; [exact Hfirst|].
    apply (IH (first + 1)%Z Hrest). lia.
Qed.

Lemma cents_exact_up_to_10000 :
  cents_exact_from 0 (Z.to_nat 10001) = true.
Proof. vm_compute. reflexivity. Qed.

(** X12: an amount written with two decimals, from 0.00 to 100.00, is
    sent to the provider as exactly that many cents: for these amounts the
    binary64 product and [Math.round] lose nothing. *)
Theorem two_decimal_amounts_are_sent_exactly
    (cents : Z) (user_id : string) (user_data : Handler.UserData.t)
    (description : string) :
  (0 ≤ cents ≤ 10000)%Z →
  price_of (Handler.billingData user_id user_data (Number.literal cents 2)
                                description)
  = Some (JNum (Number.of_Z cents)).
Proof.
  intros Hc.
  assert (H : cents_exact cents = true).
  { apply (cents_exact_from_covers (Z.to_nat 10001) 0 cents
             cents_exact_up_to_10000).
    rewrite Z2Nat.id; lia. }
  apply number_eqb_eq in H.
  change (Some (JNum (Math.round (Number.mul (Number.literal cents 2)
                                             (Number.of_Z 100))))
          = Some (JNum (Number.of_Z cents))).
  rewrite H. reflexivity.
Qed.

(** An amount of the plan's price range: 49.90. *)
Lemma two_decimal_amounts_are_sent_exactly_witness :
  price_of (Handler.billingData "abc123" Scenario.maria
              (Number.literal 4990 2) "Assinatura mensal PRAXIS")
  = Some (JNum (Number.of_Z 4990)).
Proof.
  apply two_decimal_amounts_are_sent_exactly. lia.
Defined.

(** ** More on the page: every outcome of a click *)

Section PageOutcomes.
Import SubscriptionPage.

(** X13: for a signed-in user [handleSubscribe] never rejects and always
    does the same four things in order: it raises the busy flag, sends the
    one request, then either sets the browser's location once or logs and
    shows the failure notification once, and lowers the busy flag. *)
Theorem click_is_bracketed_by_busy_flag
    (p : Platform) (user : User.t) (st : State) :
  ∃ outcome,
    handleSubscribe p (Some user) st
    = (inr tt,
       {| isLoading := false;
          effects := effects st
                     ++ [SetIsLoading true; Fetch (billing_call user)]
                     ++ outcome ++ [SetIsLoading false] |})
    ∧ ((∃ target, outcome = [LocationHref target])
       ∨ (∃ message,
            outcome = [ConsoleError ["Error creating subscription:"; message];
                       failure_toast])).
Proof.
  unfold_page. reduce_page.
  change {| RequestInit.url := _; RequestInit.method := _;
            RequestInit.headers := _; RequestInit.body := _ |}
    with (billing_call user).
  repeat page_case;
    lazymatch goal with
    | |- ∃ _, (_, {| isLoading := _;
                     effects := ((((_ ++ _) ++ _) ++ [?c]) ++ [?t]) ++ _ |})
              = _ ∧ _ => exists [c; t]
    | |- ∃ _, (_, {| isLoading := _;
                     effects := (((_ ++ _) ++ _) ++ [?l]) ++ _ |})
              = _ ∧ _ => exists [l]
    end;
    (split; [rewrite <- !app_assoc; reflexivity | eauto]).
Qed.

(** X14: when the answer is accepted, the browser's location is set to
    the answer's [redirect_url], once, and no notification is shown. *)
Theorem accepted_answer_redirects
    (p : Platform) (user : User.t) (st : State) (target : jsval) :
  accepted (fetch p (billing_call user)) target →
  handleSubscribe p (Some user) st
  = (inr tt,
     {| isLoading := false;
        effects := effects st
                   ++ [SetIsLoading true; Fetch (billing_call user);
                       LocationHref target; SetIsLoading false] |}).
Proof.
  intros (res & data & Hfetch & Hok & Hjson & Hsuccess & Hurl & Htruthy).
  unfold_page. reduce_page.
  change {| RequestInit.url := _; RequestInit.method := _;
            RequestInit.headers := _; RequestInit.body := _ |}
    with (billing_call user).
  rewrite Hfetch. reduce_page. rewrite Hok. reduce_page.
  rewrite Hjson.
  destruct data; try discriminate Hsuccess;
    reduce_page; rewrite Hsuccess, Hurl, Htruthy; reduce_page;
    rewrite <- !app_assoc; reflexivity.
Qed.

(** In the scenario: the answer is [{success: true, redirect_url}]. *)
Lemma accepted_answer_redirects_witness :
  handleSubscribe (Cases.answering Cases.go_to_bill_1)
                  (Some Scenario.maria_user) Scenario.idle
  = (inr tt,
     {| isLoading := false;
        effects := [SetIsLoading true; Fetch (billing_call Scenario.maria_user);
                    LocationHref (JStr "https://pay/bill_1");
                    SetIsLoading false] |}).
Proof.
  apply (accepted_answer_redirects
           (Cases.answering Cases.go_to_bill_1) Scenario.maria_user
           Scenario.idle (JStr "https://pay/bill_1")).
  eexists _, _.
  split; [reflexivity|]. split; [reflexivity|]. split; [reflexivity|].
  split; [reflexivity|]. split; reflexivity.
Defined.


(** X15: every other answer ends the same way for the user, whether the
    request was rejected, the status was not a success, the body was not
    JSON or was [null], or [success] or [redirect_url] was missing or
    falsy: the location is not set, the cause is only logged, and the one
    fixed notification is shown. *)
Theorem every_failure_looks_the_same
    (p : Platform) (user : User.t) (st : State) :
  (∀ target, ¬ accepted (fetch p (billing_call user)) target) →
  ∃ message,
    handleSubscribe p (Some user) st
    = (inr tt,
       {| isLoading := false;
          effects := effects st
                     ++ [SetIsLoading true; Fetch (billing_call user);
                         ConsoleError ["Error creating subscription:"; message];
                         failure_toast; SetIsLoading false] |}).
Proof.
  intros Hnot.
  unfold_page. reduce_page.
  change {| RequestInit.url := _; RequestInit.method := _;
            RequestInit.headers := _; RequestInit.body := _ |}
    with (billing_call user).
  repeat page_case;
    try (eexists; rewrite <- !app_assoc; reflexivity).
  all: exfalso;
    match goal with
    | H : truthy (jget "redirect_url" ?d) = true |- _ =>
        destruct (jget "redirect_url" d) as [target|] eqn:Hurl;
        [ apply (Hnot target); eexists _, d; repeat split; eassumption
        | discriminate H ]
    end.
Qed.

(** In the scenario: the request is rejected by the network. *)
Lemma every_failure_looks_the_same_witness :
  ∃ message,
    handleSubscribe Scenario.offline (Some Scenario.maria_user) Scenario.idle
    = (inr tt,
       {| isLoading := false;
          effects := [] ++ [SetIsLoading true;
                            Fetch (billing_call Scenario.maria_user);
                            ConsoleError ["Error creating subscription:";
                                          message];
                            failure_toast; SetIsLoading false] |}).
Proof.
  apply (every_failure_looks_the_same
           Scenario.offline Scenario.maria_user Scenario.idle).
  intros target (res & data & Hfetch & _). discriminate Hfetch.
Defined.


(** [a || literal] is never empty when the literal is not. *)
Lemma or_literal_not_empty (a : option string) (literal : string) :
  literal ≠ ""%string → or_literal a literal ≠ ""%string.
Proof.
  intros Hlit. destruct a as [s|]; [|exact Hlit].
  unfold or_literal, or_else. cbn [fmap option_fmap option_map truthy].
  destruct (String.eqb_spec s ""); cbn [negb]; assumption.
Qed.

(** X16: whatever the profile holds, the [name] and the [cpf] the page
    sends are non-empty strings: an empty or missing value never reaches
    the handler, a placeholder does. *)
Theorem name_and_cpf_are_never_empty (user : User.t) :
  ∃ name cpf,
    user_data_of "name" (payload user) = Some (JStr name)
    ∧ name ≠ ""%string
    ∧ user_data_of "cpf" (payload user) = Some (JStr cpf)
    ∧ cpf ≠ ""%string.
Proof.
  eexists _, _. split; [apply payload_name|].
  split; [apply or_literal_not_empty; discriminate|].
  split; [apply payload_cpf|].
  apply or_literal_not_empty; discriminate.
Qed.

(** X17: an email that starts with ['@'] gives no name: without a full
    name the page sends ["Cliente"]. *)
Theorem email_without_local_part_gives_placeholder
    (user : User.t) (domain : string) :
  blank (User.user_metadata user ≫= UserMetadata.full_name) →
  User.email user = Some (String "@" domain) →
  user_data_of "name" (payload user) = Some (JStr "Cliente").
Proof.
  intros Hfull Hemail. rewrite payload_name, Hemail.
  rewrite or_else_blank by exact Hfull. reflexivity.
Qed.

(** In the scenario: the email is ["@x.com"]. *)
Lemma email_without_local_part_gives_placeholder_witness :
  user_data_of "name" (payload Cases.nameless_user) = Some (JStr "Cliente").
Proof.
  apply (email_without_local_part_gives_placeholder
           Cases.nameless_user "x.com").
  - left. reflexivity.
  - reflexivity.
Defined.

End PageOutcomes.

(** ** The page and the handler together *)

Section PageAfterHandler.
Import Handler.

(** X18: when the handler's answer is not a 200, the page ends in its
    failure path, and what it logs is its own fixed text: the [error] and
    [message] of the handler's body are never read. *)
Theorem handler_failure_reaches_user_as_fixed_toast
    (hp : Platform) (req : Request.t) (hst : State)
    (resp : Response.t) (hst' : State)
    (user : SubscriptionPage.User.t) (st : SubscriptionPage.State) :
  serve hp req hst = (inr resp, hst') →
  Response.status resp ≠ 200%Z →
  SubscriptionPage.handleSubscribe (answered_by resp) (Some user) st
  = (inr tt,
     {| SubscriptionPage.isLoading := false;
        SubscriptionPage.effects :=
          SubscriptionPage.effects st
          ++ [SubscriptionPage.SetIsLoading true;
              SubscriptionPage.Fetch (billing_call user);
              SubscriptionPage.ConsoleError
                ["Error creating subscription:"; "Falha ao criar cobrança"];
              failure_toast;
              SubscriptionPage.SetIsLoading false] |}).
Proof.
  intros Hrun Hstatus. revert Hrun.
  case_method req; [| repeat next_case |];
    intros [= <- <-];
    try (exfalso; apply Hstatus; reflexivity);
    unfold_page; reduce_page; rewrite <- !app_assoc; reflexivity.
Qed.

(** In the scenario: the provider answers 402 and the handler 500. *)
Lemma handler_failure_reaches_user_as_fixed_toast_witness :
  SubscriptionPage.handleSubscribe
    (answered_by (failure_response (Error.New "AbacatePay API error: 402")))
    (Some Scenario.maria_user) Scenario.idle
  = (inr tt,
     {| SubscriptionPage.isLoading := false;
        SubscriptionPage.effects :=
          [] ++ [SubscriptionPage.SetIsLoading true;
                 SubscriptionPage.Fetch (billing_call Scenario.maria_user);
                 SubscriptionPage.ConsoleError
                   ["Error creating subscription:"; "Falha ao criar cobrança"];
                 failure_toast;
                 SubscriptionPage.SetIsLoading false] |}).
Proof.
  apply (handler_failure_reaches_user_as_fixed_toast
           (Scenario.platform 402 None None) Cases.the_request
           Scenario.empty_state
           (failure_response (Error.New "AbacatePay API error: 402"))
           (serve (Scenario.platform 402 None None) Cases.the_request
                  Scenario.empty_state).2).
  - vm_compute. reflexivity.
  - discriminate.
Defined.


(** X19: when the provider answered and both writes went through, the
    page fed with the handler's answer sends the browser to the provider's
    [url], provided that [url] is not empty. *)
Theorem handler_success_redirects_to_provider_url
    (hp : Platform) (req : Request.t) (hst : State)
    (b : BillingRequest.t) (d : AbacatePayData.t)
    (user : SubscriptionPage.User.t) (st : SubscriptionPage.State) :
  provider_answers hp req b d →
  upsert_error hp (store hst) (subscription_row hp (dates hst) b d) = None →
  insert_error hp (upsert_row (subscription_row hp (dates hst) b d) (store hst))
               (payment_row b d) = None →
  AbacatePayData.url d ≠ ""%string →
  ∃ resp hst',
    serve hp req hst = (inr resp, hst')
    ∧ SubscriptionPage.handleSubscribe (answered_by resp) (Some user) st
      = (inr tt,
         {| SubscriptionPage.isLoading := false;
            SubscriptionPage.effects :=
              SubscriptionPage.effects st
              ++ [SubscriptionPage.SetIsLoading true;
                  SubscriptionPage.Fetch (billing_call user);
                  SubscriptionPage.LocationHref (JStr (AbacatePayData.url d));
                  SubscriptionPage.SetIsLoading false] |}).
Proof.
  intros Hprovider Hupsert Hinsert Hurl.
  destruct (run_success hp req hst b d Hprovider Hupsert Hinsert)
    as (hst' & Hrun & _).
  exists (success_response d), hst'. split; [exact Hrun|].
  unfold_page. cbn -[SubscriptionPage.payload String.append].
  destruct (String.eqb_spec (AbacatePayData.url d) ""); [contradiction|].
  cbn -[SubscriptionPage.payload String.append].
  rewrite <- !app_assoc. reflexivity.
Qed.

(** In the scenario: the provider gives [bill_1]. *)
Lemma handler_success_redirects_to_provider_url_witness :
  ∃ resp hst',
    serve (Cases.provider_gives Scenario.bill_1) Cases.the_request
          Scenario.empty_state
    = (inr resp, hst')
    ∧ SubscriptionPage.handleSubscribe (answered_by resp)
        (Some Scenario.maria_user) Scenario.idle
      = (inr tt,
         {| SubscriptionPage.isLoading := false;
            SubscriptionPage.effects :=
              [] ++ [SubscriptionPage.SetIsLoading true;
                     SubscriptionPage.Fetch (billing_call Scenario.maria_user);
                     SubscriptionPage.LocationHref (JStr "https://pay/bill_1");
                     SubscriptionPage.SetIsLoading false] |}).
Proof.
  apply (handler_success_redirects_to_provider_url
           (Cases.provider_gives Scenario.bill_1) Cases.the_request
           Scenario.empty_state Cases.the_body Scenario.bill_1
           Scenario.maria_user Scenario.idle);
    first [ provider_answers_here | reflexivity | discriminate ].
Defined.


(** X20: with an empty [url] in the provider's answer the billing exists
    and both rows are written, the handler answers 200, and yet the page
    ends in its failure path: the user is told the attempt failed. *)
Theorem empty_provider_url_is_shown_as_failure
    (hp : Platform) (req : Request.t) (hst : State)
    (b : BillingRequest.t) (d : AbacatePayData.t)
    (user : SubscriptionPage.User.t) (st : SubscriptionPage.State) :
  provider_answers hp req b d →
  upsert_error hp (store hst) (subscription_row hp (dates hst) b d) = None →
  insert_error hp (upsert_row (subscription_row hp (dates hst) b d) (store hst))
               (payment_row b d) = None →
  AbacatePayData.url d = ""%string →
  ∃ resp hst',
    serve hp req hst = (inr resp, hst')
    ∧ Response.status resp = 200%Z
    ∧ pagamentos (store hst') = pagamentos (store hst) ++ [payment_row b d]
    ∧ SubscriptionPage.handleSubscribe (answered_by resp) (Some user) st
      = (inr tt,
         {| SubscriptionPage.isLoading := false;
            SubscriptionPage.effects :=
              SubscriptionPage.effects st
              ++ [SubscriptionPage.SetIsLoading true;
                  SubscriptionPage.Fetch (billing_call user);
                  SubscriptionPage.ConsoleError
                    ["Error creating subscription:";
                     "Resposta inválida do servidor"];
                  failure_toast;
                  SubscriptionPage.SetIsLoading false] |}).
Proof.
  intros Hprovider Hupsert Hinsert Hurl.
  destruct (run_success hp req hst b d Hprovider Hupsert Hinsert)
    as (hst' & Hrun & Hstore & _).
  exists (success_response d), hst'. split; [exact Hrun|].
  split; [reflexivity|]. split; [rewrite Hstore; reflexivity|].
  unfold_page. cbn -[SubscriptionPage.payload String.append].
  rewrite Hurl. cbn -[SubscriptionPage.payload String.append].
  rewrite <- !app_assoc. reflexivity.
Qed.

(** In the scenario: the provider gives a billing without a [url]. *)
Lemma empty_provider_url_is_shown_as_failure_witness :
  ∃ resp hst',
    serve (Cases.provider_gives Cases.bill_without_url) Cases.the_request
          Scenario.empty_state
    = (inr resp, hst')
    ∧ Response.status resp = 200%Z
    ∧ pagamentos (store hst')
      = [] ++ [payment_row Cases.the_body Cases.bill_without_url]
    ∧ SubscriptionPage.handleSubscribe (answered_by resp)
        (Some Scenario.maria_user) Scenario.idle
      = (inr tt,
         {| SubscriptionPage.isLoading := false;
            SubscriptionPage.effects :=
              [] ++ [SubscriptionPage.SetIsLoading true;
                     SubscriptionPage.Fetch (billing_call Scenario.maria_user);
                     SubscriptionPage.ConsoleError
                       ["Error creating subscription:";
                        "Resposta inválida do servidor"];
                     failure_toast;
                     SubscriptionPage.SetIsLoading false] |}).
Proof.
  apply (empty_provider_url_is_shown_as_failure
           (Cases.provider_gives Cases.bill_without_url) Cases.the_request
           Scenario.empty_state Cases.the_body Cases.bill_without_url
           Scenario.maria_user Scenario.idle);
    first [ provider_answers_here | reflexivity ].
Defined.

End PageAfterHandler.
